(** * pytd.writer: the three writers and their conflict-policy contract

    A shallow embedding of [pytd/writer.py].  The writers are effectful
    Python: they mutate the caller's DataFrame, keep a Spark session on the
    writer object, and talk to remote services that may raise at any call.
    The embedding threads a [World] (the Python heap, the journal of calls
    issued to the outside) through a small state-and-exception monad, and
    reads the answers of the outside from an [Env]. *)

From Stdlib Require Import ZArith List String Ascii Bool Lia DecimalString.
Import ListNotations.
Open Scope string_scope.

(** ** Python strings, numbers and exceptions *)

Module Py.

(** [str(n)] for a Python int. *)
Definition str_int (n : Z) : string := NilZero.string_of_int (Z.to_int n).

(** [s.replace(a, b)] where [a] and [b] are one character long. *)
Fixpoint replace_char (a b : ascii) (s : string) : string :=
  match s with
  | EmptyString => EmptyString
  | String c s' =>
      String (if Ascii.eqb c a then b else c) (replace_char a b s')
  end.

(** [sub in s] on strings. *)
Definition contains (sub s : string) : bool :=
  match String.index 0 sub s with
  | Some _ => true
  | None => false
  end.

(** [sep.join(xs)]. *)
Definition join (sep : string) (xs : list string) : string :=
  String.concat sep xs.

(** [x in xs] for a tuple of strings. *)
Definition str_in (x : string) (xs : list string) : bool :=
  existsb (String.eqb x) xs.

(** The exception classes the module raises or catches.  Every class here
    derives from [Exception]; [OtherException] stands for whatever else a
    remote client raises. *)
Inductive exn_class :=
| ValueError
| RuntimeError
| PermissionError
| IOError
| HTTPError
| Py4JJavaError
| OtherException.

(** An exception with the text [str(e)] gives (for [Py4JJavaError], the text
    of [e.java_exception]). *)
Record exn := Exn { class_of : exn_class; str : string }.

Definition is_HTTPError (e : exn) : bool :=
  match class_of e with HTTPError => true | _ => false end.

Definition is_Py4JJavaError (e : exn) : bool :=
  match class_of e with Py4JJavaError => true | _ => false end.

(** A cell of a DataFrame once it is a Python object.  A float is carried
    by the text [str] gives for it: binary floating point is not modelled. *)
Inductive value :=
| VInt (n : Z)
| VFloat (text : string)
| VStr (s : string)
| VObj (text : string).

(** [str(e)] for a cell. *)
Definition py_str (v : value) : string :=
  match v with
  | VInt n => str_int n
  | VFloat t => t
  | VStr s => s
  | VObj t => t
  end.

(** [isinstance(e, str)]. *)
Definition isinstance_str (v : value) : bool :=
  match v with VStr _ => true | _ => false end.

(** [str(float(n))] for an int64 [n], as numpy computes it when it casts an
    int64 array to float64.  The conversion is a parameter of the
    development; it is known on the integers float64 holds exactly. *)
Class FloatRuntime := {
  float_str_of_int : Z -> string;
  float_str_of_int_exact :
    forall n, (Z.abs n <= 2 ^ 53)%Z ->
      float_str_of_int n = str_int n ++ ".0"
}.

(** [c.lower()] for one ASCII character: the letters A to Z move to a to z. *)
Definition lower_char (c : ascii) : ascii :=
  let n := nat_of_ascii c in
  if (65 <=? n)%nat && (n <=? 90)%nat then ascii_of_nat (n + 32) else c.

(** [s.lower()] for an ASCII string.  Outside ASCII Python follows the
    Unicode case tables, which are not modelled: statements about [lower]
    are made for ASCII strings. *)
Fixpoint lower (s : string) : string :=
  match s with
  | EmptyString => EmptyString
  | String c s' => String (lower_char c) (lower s')
  end.

(** Every character of [s] is an ASCII character. *)
Definition is_ascii (s : string) : bool :=
  forallb (fun c => (nat_of_ascii c <? 128)%nat) (list_ascii_of_string s).

End Py.
Export Py.

(** ** pandas.DataFrame *)

(** The dtypes [write_dataframe] tells apart: it compares each dtype with
    ["int64"] and ["float64"] and treats every other one alike. *)
Inductive dtype := int64 | float64 | other_dtype.

(** A column is a typed array. [OtherCol] is a column of any dtype other
    than int64 and float64 (object, bool, int32, datetime64, ...). *)
Inductive column :=
| Int64Col (cells : list Z)
| Float64Col (cells : list string)
| OtherCol (cells : list value).

Definition dtype_of (c : column) : dtype :=
  match c with
  | Int64Col _ => int64
  | Float64Col _ => float64
  | OtherCol _ => other_dtype
  end.

Definition column_values (c : column) : list value :=
  match c with
  | Int64Col xs => map VInt xs
  | Float64Col xs => map VFloat xs
  | OtherCol xs => xs
  end.

(** A frame: the length of its index and its labelled columns, in order.
    Column labels are taken to be distinct, so that [dataframe[c]] names one
    column. *)
Record DataFrame := {
  index_len : nat;
  df_columns : list (string * column)
}.

Module DataFrame.

(** [dataframe.columns] *)
Definition columns (df : DataFrame) : list string :=
  map fst (df_columns df).

(** [dataframe.dtypes] *)
Definition dtypes (df : DataFrame) : list dtype :=
  map (fun lc => dtype_of (snd lc)) (df_columns df).

(** [dataframe[c]] *)
Definition getitem (c : string) (df : DataFrame) : option column :=
  match find (fun lc => String.eqb (fst lc) c) (df_columns df) with
  | Some lc => Some (snd lc)
  | None => None
  end.

(** [dataframe[c] = col]: replaces the column labelled [c], or appends a new
    column when no column has that label. *)
Definition setitem (c : string) (col : column) (df : DataFrame) : DataFrame :=
  if existsb (String.eqb c) (columns df) then
    {| index_len := index_len df;
       df_columns :=
         map (fun lc => if String.eqb (fst lc) c then (fst lc, col) else lc)
             (df_columns df) |}
  else
    {| index_len := index_len df;
       df_columns := df_columns df ++ [(c, col)] |}.

(** [series.astype(str)]: every cell becomes its [str]; the column is an
    object column afterwards. *)
Definition astype_str (col : column) : column :=
  OtherCol (map (fun v => VStr (py_str v)) (column_values col)).

(** [dataframe[c] = n] for an int scalar: broadcast over the index. *)
Definition setitem_int (c : string) (n : Z) (df : DataFrame) : DataFrame :=
  setitem c (Int64Col (repeat n (index_len df))) df.

Section Values.
Context {RT : FloatRuntime}.

(** The dtype of [dataframe.values].  pandas interleaves the columns into
    one array of their common dtype: int64 together with float64 gives
    float64, and any other column makes it object. *)
Definition values_dtype (df : DataFrame) : dtype :=
  let ts := dtypes df in
  if existsb (fun t => match t with other_dtype => true | _ => false end) ts
  then other_dtype
  else if existsb (fun t => match t with float64 => true | _ => false end) ts
  then float64
  else int64.

(** The cells of a column inside an array of dtype [t]. *)
Definition cells_as (t : dtype) (col : column) : list value :=
  match t, col with
  | float64, Int64Col xs => map (fun n => VFloat (float_str_of_int n)) xs
  | _, _ => column_values col
  end.

(** [dataframe.values.tolist()]: one list per index entry, the cells in
    column order. *)
Definition values_tolist (df : DataFrame) : list (list value) :=
  let t := values_dtype df in
  let cols := map (fun lc => cells_as t (snd lc)) (df_columns df) in
  map (fun i => map (fun col => nth i col (VObj "")) cols)
      (seq 0 (index_len df)).

End Values.


End DataFrame.

(** ** The table handle *)

(** Modelled from the spec: the table handle ([pytd.table.Table], which
    [writer.py] receives and whose class is not part of this module).  It
    names a destination and carries the client's credential and endpoint;
    its [exist], [create], [delete] and [client.query] are calls to the
    remote warehouse, answered by the environment below. *)
Record Client := {
  apikey : string;
  endpoint : string
}.

Record Table := {
  database : string;
  table : string;
  client : Client
}.

(** ** Calls issued to the outside *)

(** A Spark session handle. *)
Definition session := nat.

(** The journal records every call that has an effect outside the Python
    heap, in the order issued, whether the call returns or raises.  Reads of
    the outside ([table.exist], [time.time()], [os.path.exists],
    [os.getenv], [isStopped()]) are not recorded. *)
Inductive event :=
(* table.delete(), table.create(...), table.client.query(q, engine) *)
| TableDelete (t : Table)
| TableCreate (t : Table) (schema : option (list string * list string))
| ClientQuery (t : Table) (q engine : string)
(* api_client.create_bulk_import(name, database, table) and the session's
   methods; a session is identified by its name *)
| CreateBulkImport (name db tbl : string)
| UploadFile (name part format path : string)
| Freeze (name : string)
| Perform (name : string) (wait : bool)
| Commit (name : string) (wait : bool)
| DeleteSession (name : string)
(* dataframe.to_csv(path), fp.close() *)
| ToCsv (path : string) (df : DataFrame)
| CloseFile (path : string)
(* logger.warning(msg), logger.info(msg) *)
| LogWarning (msg : string)
| LogInfo (msg : string)
(* urlopen(url), open(path, "w+b") with f.write(response.read()),
   os.remove(path), response.close() *)
| UrlOpen (url : string)
| WriteFile (path : string)
| RemoveFile (path : string)
| CloseResponse
(* os.environ["PYSPARK_SUBMIT_ARGS"] = ...: the values the template is
   filled with; [api] holds TD_PLAZMA_API and TD_PRESTO_API when the three
   host lines are present *)
| SetSubmitArgs (jar key site : string) (api : option (string * string))
(* SparkSession.builder.master(m).getOrCreate() *)
| GetOrCreate (master : string)
(* td_spark.createDataFrame(dataframe) *)
| CreateDataFrame (s : session) (df : DataFrame)
(* sdf.write.mode(mode).format(fmt).option("table", name).save() *)
| Save (s : session) (mode fmt name : string)
(* td_spark.stop() *)
| Stop (s : session).

(** The calls that act on the destination table: deleting or creating it,
    a query, the bulk-import protocol, the engine's write. *)
Definition on_destination (ev : event) : bool :=
  match ev with
  | TableDelete _ | TableCreate _ _ | ClientQuery _ _ _
  | CreateBulkImport _ _ _ | UploadFile _ _ _ _ | Freeze _ | Perform _ _
  | Commit _ _ | DeleteSession _ | Save _ _ _ _ => true
  | _ => false
  end.

(** ** The Python heap and the outside *)

(** References to objects on the heap. *)
Definition ref := nat.

(** The attributes of a [SparkWriter] instance. *)
Record SparkWriterObj := {
  td_spark_path : option string;
  download_if_missing : bool;
  td_spark : option session;
  fetched_apikey : string;
  fetched_endpoint : string
}.

(** The state a call runs in: the DataFrames and SparkWriter objects on the
    heap, the Spark sessions that are stopped, the next session handle, the
    number of clock reads so far, and the journal. *)
Record World := {
  frames : ref -> DataFrame;
  writers : ref -> SparkWriterObj;
  stopped : list session;
  next_session : session;
  ticks : nat;
  journal : list event
}.

(** What the outside answers during one call of a writer.  A field of type
    [option exn] is the fate of the call it is named after: [None] when the
    call returns, [Some e] when it raises [e]. *)
Record Env := {
  (* int(time.time()) at the n-th read of the clock *)
  clock : nat -> Z;
  (* pytd.table.Table *)
  table_exist : bool;
  table_delete : option exn;
  table_create : option exn;
  client_query : option exn;
  (* tempfile.NamedTemporaryFile(suffix=".csv").name *)
  tmp_name : string;
  (* tdclient bulk import *)
  create_bulk_import : option exn;
  upload_file : option exn;
  freeze : option exn;
  perform : option exn;
  error_records : Z;
  valid_records : Z;
  commit : option exn;
  delete_session : option exn;
  (* the local Python installation *)
  pyspark_installed : bool;
  (* os.path.join(os.path.dirname(os.path.abspath(__file__)),
     TD_SPARK_JAR_NAME) *)
  default_jar_path : string;
  path_exists : string -> bool;
  getenv : string -> option string;
  (* download of the td-spark jar *)
  urlopen : option exn;
  write_file : option exn;
  remove_file : option exn;
  close_response : option exn;
  (* pyspark *)
  getOrCreate : option exn;
  createDataFrame : option exn;
  save : option exn;
  stop : option exn
}.

(** The same answers, except for the one to [table.exist]. *)
Definition with_table_exist (b : bool) (env : Env) : Env :=
  {| clock := clock env;
     table_exist := b;
     table_delete := table_delete env;
     table_create := table_create env;
     client_query := client_query env;
     tmp_name := tmp_name env;
     create_bulk_import := create_bulk_import env;
     upload_file := upload_file env;
     freeze := freeze env;
     perform := perform env;
     error_records := error_records env;
     valid_records := valid_records env;
     commit := commit env;
     delete_session := delete_session env;
     pyspark_installed := pyspark_installed env;
     default_jar_path := default_jar_path env;
     path_exists := path_exists env;
     getenv := getenv env;
     urlopen := urlopen env;
     write_file := write_file env;
     remove_file := remove_file env;
     close_response := close_response env;
     getOrCreate := getOrCreate env;
     createDataFrame := createDataFrame env;
     save := save env;
     stop := stop env |}.

(** The same answers, except for the count of error records. *)
Definition with_error_records (n : Z) (env : Env) : Env :=
  {| clock := clock env;
     table_exist := table_exist env;
     table_delete := table_delete env;
     table_create := table_create env;
     client_query := client_query env;
     tmp_name := tmp_name env;
     create_bulk_import := create_bulk_import env;
     upload_file := upload_file env;
     freeze := freeze env;
     perform := perform env;
     error_records := n;
     valid_records := valid_records env;
     commit := commit env;
     delete_session := delete_session env;
     pyspark_installed := pyspark_installed env;
     default_jar_path := default_jar_path env;
     path_exists := path_exists env;
     getenv := getenv env;
     urlopen := urlopen env;
     write_file := write_file env;
     remove_file := remove_file env;
     close_response := close_response env;
     getOrCreate := getOrCreate env;
     createDataFrame := createDataFrame env;
     save := save env;
     stop := stop env |}.

(** ** Computations: state and exceptions *)

Inductive outcome (A : Type) :=
| Ret (a : A)
| Raise (e : exn).
Arguments Ret {A} a.
Arguments Raise {A} e.

(** A computation runs in a world and ends by returning or by raising; the
    world it leaves keeps every mutation made before the exception. *)
Definition M (A : Type) : Type := World -> outcome A * World.

Definition ret {A} (a : A) : M A := fun w => (Ret a, w).

Definition raise {A} (e : exn) : M A := fun w => (Raise e, w).

Definition bind {A B} (m : M A) (k : A -> M B) : M B :=
  fun w =>
    match m w with
    | (Ret a, w') => k a w'
    | (Raise e, w') => (Raise e, w')
    end.

(** [try: m / except C as e: h e], where [catches] decides membership in
    the class [C]. *)
Definition try_except {A} (m : M A) (catches : exn -> bool) (h : exn -> M A)
  : M A :=
  fun w =>
    match m w with
    | (Raise e, w') => if catches e then h e w' else (Raise e, w')
    | r => r
    end.

(** [except Exception] catches every exception of the model. *)
Definition Exception (e : exn) : bool := true.

Declare Scope py_scope.
Delimit Scope py_scope with py.
Notation "x <- m ;; k" := (bind m (fun x => k))
  (at level 61, m at next level, right associativity) : py_scope.
Notation "m ;; k" := (bind m (fun _ => k))
  (at level 61, right associativity) : py_scope.
Open Scope py_scope.

(** Issue a call: journal it, then return or raise as the outside says. *)
Definition call (ev : event) (fate : option exn) : M unit :=
  fun w =>
    (match fate with None => Ret tt | Some e => Raise e end,
     {| frames := frames w; writers := writers w; stopped := stopped w;
        next_session := next_session w; ticks := ticks w;
        journal := journal w ++ [ev] |}).

(** [int(time.time())] *)
Definition time_time (env : Env) : M Z :=
  fun w =>
    (Ret (clock env (ticks w)),
     {| frames := frames w; writers := writers w; stopped := stopped w;
        next_session := next_session w; ticks := S (ticks w);
        journal := journal w |}).

(** Read and write a DataFrame through its reference. *)
Definition load_frame (r : ref) : M DataFrame :=
  fun w => (Ret (frames w r), w).

Definition store_frame (r : ref) (df : DataFrame) : M unit :=
  fun w =>
    (Ret tt,
     {| frames := fun r' => if Nat.eqb r' r then df else frames w r';
        writers := writers w; stopped := stopped w;
        next_session := next_session w; ticks := ticks w;
        journal := journal w |}).

(** Read and write the attributes of a SparkWriter. *)
Definition load_self (self : ref) : M SparkWriterObj :=
  fun w => (Ret (writers w self), w).

Definition store_self (self : ref) (o : SparkWriterObj) : M unit :=
  fun w =>
    (Ret tt,
     {| frames := frames w;
        writers := fun r' => if Nat.eqb r' self then o else writers w r';
        stopped := stopped w; next_session := next_session w;
        ticks := ticks w; journal := journal w |}).

(** The events a run from [w] to [w'] added to the journal. *)
Definition issued (w w' : World) : list event :=
  skipn (List.length (journal w)) (journal w').

(** ** InsertIntoWriter *)

Module InsertIntoWriter.
Section WithFloats.
Context {RT : FloatRuntime}.

(** The double quote character. *)
Definition dquote : ascii := ascii_of_nat 34.

(** One element of a row, as the list comprehension renders it: a [str]
    has its single quotes replaced by double quotes and is put between
    single quotes; anything else is rendered by [str(e)]. *)
Definition literal (e : value) : string :=
  match e with
  | VStr s => "'" ++ replace_char "'"%char dquote s ++ "'"
  | _ => py_str e
  end.

(** ["({})".format(", ".join([...]))] for one row. *)
Definition row_literal (lst : list value) : string :=
  "(" ++ join ", " (map literal lst) ++ ")".

(** The query [insert_into] builds. *)
Definition q_insert (t : Table) (list_of_list : list (list value))
    (column_names : list string) : string :=
  let values := join ", " (map row_literal list_of_list) in
  "INSERT INTO " ++ database t ++ "." ++ table t
    ++ " (" ++ join ", " column_names ++ ") VALUES " ++ values.

Definition insert_into (env : Env) (t : Table)
    (list_of_list : list (list value))
    (column_names column_types : list string) (if_exists : string)
  : M unit :=
  let create :=
    call (TableCreate t (Some (column_names, column_types)))
         (table_create env) in
  let insert :=
    call (ClientQuery t (q_insert t list_of_list column_names) "presto")
         (client_query env) in
  if table_exist env then
    if if_exists =? "error" then
      raise (Exn RuntimeError "target table already exists")
    else if if_exists =? "ignore" then
      ret tt
    else if if_exists =? "append" then
      insert
    else if if_exists =? "overwrite" then
      call (TableDelete t) (table_delete env);;
      create;;
      insert
    else
      raise (Exn ValueError ("invalid valud for if_exists: " ++ if_exists))
  else
    create;;
    insert.

(** One turn of the loop over [zip(dataframe.columns, dataframe.dtypes)]:
    the frame as the turn leaves it, and the two lists it appends to. *)
Definition infer_column (acc : DataFrame * list string * list string)
    (ct : string * dtype) : DataFrame * list string * list string :=
  let '(df, column_names, column_types) := acc in
  let (c, t) := ct in
  match t with
  | int64 => (df, column_names ++ [c], column_types ++ ["bigint"])%list
  | float64 => (df, column_names ++ [c], column_types ++ ["double"])%list
  | other_dtype =>
      (match DataFrame.getitem c df with
       | Some col => DataFrame.setitem c (DataFrame.astype_str col) df
       | None => df
       end,
       (column_names ++ [c])%list, (column_types ++ ["varchar"])%list)
  end.

(** The whole loop.  The labels and dtypes are those of the frame as it
    was passed in: [zip] reads them before the first turn. *)
Definition infer_columns (df : DataFrame)
  : DataFrame * list string * list string :=
  fold_left infer_column
            (combine (DataFrame.columns df) (DataFrame.dtypes df))
            (df, [], []).

Definition write_dataframe (env : Env) (dataframe : ref) (t : Table)
    (if_exists : string) : M unit :=
  df <- load_frame dataframe;;
  let '(df', column_names, column_types) := infer_columns df in
  store_frame dataframe df';;
  insert_into env t (DataFrame.values_tolist df') column_names column_types
              if_exists.

End WithFloats.
End InsertIntoWriter.

(** ** BulkImportWriter *)

Module BulkImportWriter.

(** The second half of [bulk_import], from the line that names the session
    to the end: the protocol on the remote session.  [csv] is the name of
    the file the pointer refers to, the only thing read from it. *)
Definition import_session (env : Env) (t : Table) (csv : string) : M unit :=
  now <- time_time env;;
  let session_name := "session-" ++ str_int now in
  call (CreateBulkImport session_name (database t) (table t))
       (create_bulk_import env);;
  try_except
    (call (UploadFile session_name "part" "csv" csv) (upload_file env);;
     call (Freeze session_name) (freeze env))
    Exception
    (fun e =>
       call (DeleteSession session_name) (delete_session env);;
       raise (Exn RuntimeError ("failed to upload file: " ++ str e)));;
  call (Perform session_name true) (perform env);;
  (if (0 <? error_records env)%Z then
     call (LogWarning ("detected " ++ str_int (error_records env)
                         ++ " error records.")) None
   else ret tt);;
  (if (0 <? valid_records env)%Z then
     call (LogInfo ("imported " ++ str_int (valid_records env)
                      ++ " records.")) None
   else
     raise (Exn RuntimeError
                ("no records have been imported: " ++ session_name)));;
  call (Commit session_name true) (commit env);;
  call (DeleteSession session_name) (delete_session env).

(** [bulk_import]: the policy block, then the session. *)
Definition bulk_import (env : Env) (t : Table) (csv : string)
    (if_exists : string) : M unit :=
  if table_exist env then
    if if_exists =? "error" then
      raise (Exn RuntimeError "target table already exists")
    else if if_exists =? "ignore" then
      ret tt
    else if if_exists =? "append" then
      raise (Exn ValueError "Bulk import API does not support `append`")
    else if if_exists =? "overwrite" then
      call (TableDelete t) (table_delete env);;
      call (TableCreate t None) (table_create env);;
      import_session env t csv
    else
      raise (Exn ValueError ("invalid valud for if_exists: " ++ if_exists))
  else
    call (TableCreate t None) (table_create env);;
    import_session env t csv.

(** The temporary file, [to_csv] and [fp.close()] work on the local disk
    and are taken to return; [fp.close()] is not reached when [bulk_import]
    raises. *)
Definition write_dataframe (env : Env) (dataframe : ref) (t : Table)
    (if_exists : string) : M unit :=
  df <- load_frame dataframe;;
  (if negb (str_in "time" (DataFrame.columns df)) then
     now <- time_time env;;
     store_frame dataframe (DataFrame.setitem_int "time" now df)
   else ret tt);;
  let fp := tmp_name env in
  df' <- load_frame dataframe;;
  call (ToCsv fp df') None;;
  bulk_import env t fp if_exists;;
  call (CloseFile fp) None.

End BulkImportWriter.

(** ** SparkWriter *)

Module SparkWriter.

Definition TD_SPARK_BASE_URL (name : string) : string :=
  "https://s3.amazonaws.com/td-spark/" ++ name.

Definition TD_SPARK_JAR_NAME : string := "td-spark-assembly_2.11-1.1.0.jar".

(** [__init__]: no session yet, no identity fetched. *)
Definition init (path : option string) (download : bool) : SparkWriterObj :=
  {| td_spark_path := path;
     download_if_missing := download;
     td_spark := None;
     fetched_apikey := "";
     fetched_endpoint := "" |}.

(** [td_spark._jsc.sc().isStopped()] *)
Definition isStopped (s : session) : M bool :=
  fun w => (Ret (existsb (Nat.eqb s) (stopped w)), w).

(** [SparkSession.builder.master("local[*]").getOrCreate()]: a session
    that no handle named before. *)
Definition builder_getOrCreate (env : Env) : M session :=
  call (GetOrCreate "local[*]") (getOrCreate env);;
  fun w =>
    (Ret (next_session w),
     {| frames := frames w; writers := writers w; stopped := stopped w;
        next_session := S (next_session w); ticks := ticks w;
        journal := journal w |}).

(** [td_spark.stop()] *)
Definition session_stop (env : Env) (s : session) : M unit :=
  call (Stop s) (stop env);;
  fun w =>
    (Ret tt,
     {| frames := frames w; writers := writers w;
        stopped := s :: stopped w; next_session := next_session w;
        ticks := ticks w; journal := journal w |}).

Definition _download_td_spark (env : Env) (destination : string) : M unit :=
  let download_url := TD_SPARK_BASE_URL TD_SPARK_JAR_NAME in
  try_except
    (call (UrlOpen download_url) (urlopen env))
    is_HTTPError
    (fun _ =>
       raise (Exn RuntimeError
                  ("failed to access to the download URL: " ++ download_url)));;
  call (LogInfo "Downloading td-spark...") None;;
  try_except
    (call (WriteFile destination) (write_file env))
    Exception
    (fun e =>
       call (RemoveFile destination) (remove_file env);;
       raise e);;
  call (LogInfo "Completed to download") None;;
  call CloseResponse (close_response env).

(** The truth value of what [os.getenv] returns: [None] and the empty
    string are false. *)
Definition truthy (v : option string) : bool :=
  match v with
  | Some (String _ _) => true
  | _ => false
  end.

Definition _fetch_td_spark (env : Env) (key ep : string)
    (path : option string) (download : bool) : M session :=
  if negb (pyspark_installed env) then
    raise (Exn RuntimeError "PySpark is not installed")
  else
    let path :=
      match path with
      | None => default_jar_path env
      | Some p => p
      end in
    let available := path_exists env path in
    (if negb available && download then
       _download_td_spark env path
     else if negb available then
       raise (Exn IOError
                  "td-spark is not found and `download_if_missing` is False")
     else ret tt);;
    let plazma_api := getenv env "TD_PLAZMA_API" in
    let presto_api := getenv env "TD_PRESTO_API" in
    let api_conf :=
      match plazma_api, presto_api with
      | Some a, Some b =>
          if truthy plazma_api && truthy presto_api then Some (a, b) else None
      | _, _ => None
      end in
    let site := "us" in
    let site := if contains ".co.jp" ep then "jp" else site in
    let site := if contains "eu01" ep then "eu01" else site in
    call (SetSubmitArgs path key site api_conf) None;;
    try_except
      (builder_getOrCreate env)
      Exception
      (fun e =>
         raise (Exn RuntimeError ("failed to connect to td-spark: " ++ str e))).

Definition if_exists_values : list string :=
  ["error"; "overwrite"; "append"; "ignore"].

(** The last part of [write_dataframe], from [createDataFrame] on: the
    write through the session [s]. *)
Definition engine_write (env : Env) (s : session) (dataframe : ref)
    (t : Table) (if_exists : string) : M unit :=
  df <- load_frame dataframe;;
  call (CreateDataFrame s df) (createDataFrame env);;
  try_except
    (call (Save s if_exists "com.treasuredata.spark"
                (database t ++ "." ++ table t))
          (save env))
    is_Py4JJavaError
    (fun e =>
       if contains "API_ACCESS_FAILURE" (str e) then
         raise (Exn PermissionError
           ("failed to access to Treasure Data Plazma API."
            ++ "Contact customer support to enable access rights."))
       else
         raise (Exn RuntimeError
                    ("failed to load table via td-spark: " ++ str e))).

(** The ValueError for a table handle whose identity is not the one the
    session was fetched with. *)
Definition mismatch : exn :=
  Exn ValueError
      ("given Table instance and SparkSession have different apikey"
       ++ "and/or endpoint. Create and use a new SparkWriter instance.").

(** The first branch of the test on [self.td_spark]: fetch a session for
    the identity of the table handle, then record the session and the
    identity on the writer. *)
Definition fetch_session (env : Env) (self : ref) (t : Table) : M session :=
  o <- load_self self;;
  s <- _fetch_td_spark env (apikey (client t)) (endpoint (client t))
                       (td_spark_path o) (download_if_missing o);;
  store_self self
    {| td_spark_path := td_spark_path o;
       download_if_missing := download_if_missing o;
       td_spark := Some s;
       fetched_apikey := apikey (client t);
       fetched_endpoint := endpoint (client t) |};;
  ret s.

(** The whole test on [self.td_spark]: the session the write goes through.
    [self.td_spark is None or ...isStopped()] asks the session only when
    there is one. *)
Definition session_for (env : Env) (self : ref) (t : Table) : M session :=
  o <- load_self self;;
  match td_spark o with
  | None => fetch_session env self t
  | Some s =>
      halted <- isStopped s;;
      if (halted : bool) then fetch_session env self t
      else if negb (apikey (client t) =? fetched_apikey o)
              || negb (endpoint (client t) =? fetched_endpoint o)
      then raise mismatch
      else ret s
  end.

(** [write_dataframe]: the check of the policy, the session, the write. *)
Definition write_dataframe (env : Env) (self : ref) (dataframe : ref)
    (t : Table) (if_exists : string) : M unit :=
  if negb (str_in if_exists if_exists_values) then
    raise (Exn ValueError ("invalid valud for if_exists: " ++ if_exists))
  else
    s <- session_for env self t;;
    engine_write env s dataframe t if_exists.

Definition close (env : Env) (self : ref) : M unit :=
  o <- load_self self;;
  match td_spark o with
  | Some s => session_stop env s
  | None => ret tt
  end.

End SparkWriter.

(** ** The Writer interface *)

(** The three subclasses of [Writer].  The first two keep no state; a
    [SparkWriter] is an object on the heap. *)
Inductive Writer :=
| InsertInto
| BulkImport
| Spark (self : ref).

(** What a constructor call leaves: the class of the new object and, for a
    SparkWriter, its attributes. *)
Inductive constructed :=
| NewBulkImportWriter
| NewInsertIntoWriter
| NewSparkWriter (o : SparkWriterObj).

Module Writer.

(** [from_string(writer, **kwargs)].  The three constructors are called
    without arguments: the keyword arguments are not passed on, so a
    SparkWriter made here has the defaults of [__init__]. *)
Definition from_string (writer : string) : outcome constructed :=
  let writer := lower writer in
  if writer =? "bulk_import" then Ret NewBulkImportWriter
  else if writer =? "insert_into" then Ret NewInsertIntoWriter
  else if writer =? "spark" then Ret (NewSparkWriter (SparkWriter.init None true))
  else Raise (Exn ValueError "unknown way to upload data to TD is specified").

Section WithFloats.
Context {RT : FloatRuntime}.

Definition write_dataframe (wr : Writer) (env : Env) (dataframe : ref)
    (t : Table) (if_exists : string) : M unit :=
  match wr with
  | InsertInto => InsertIntoWriter.write_dataframe env dataframe t if_exists
  | BulkImport => BulkImportWriter.write_dataframe env dataframe t if_exists
  | Spark self => SparkWriter.write_dataframe env self dataframe t if_exists
  end.

(** [close] does nothing unless the subclass overrides it. *)
Definition close (wr : Writer) (env : Env) : M unit :=
  match wr with
  | Spark self => SparkWriter.close env self
  | _ => ret tt
  end.

End WithFloats.
End Writer.

(** ** Fixtures *)

(** A runtime for the fixtures: [str(float(n))] as Python prints it for the
    integers float64 holds exactly, the only ones the fixtures convert. *)
#[export] Instance small_ints : FloatRuntime.
Proof.
  refine {| float_str_of_int := fun n => str_int n ++ ".0" |}.
  intros; reflexivity.
Defined.

Definition K1E1 : Client := {| apikey := "K1"; endpoint := "E1" |}.
Definition K2E1 : Client := {| apikey := "K2"; endpoint := "E1" |}.

Definition db_tbl : Table :=
  {| database := "db"; table := "tbl"; client := K1E1 |}.

Definition db_tbl_K2 : Table :=
  {| database := "db"; table := "tbl"; client := K2E1 |}.

(** The payload [[{"a": 1, "b": 2.5}]]. *)
Definition ab_frame : DataFrame :=
  {| index_len := 1;
     df_columns := [("a", Int64Col [1%Z]); ("b", Float64Col ["2.5"])] |}.

(** A payload with an object column that holds a [str] and a [bool]. *)
Definition mixed_frame : DataFrame :=
  {| index_len := 2;
     df_columns := [("a", Int64Col [1%Z; 2%Z]);
                    ("s", OtherCol [VStr "it's"; VObj "True"])] |}.

(** A payload of two columns and no row. *)
Definition no_rows : DataFrame :=
  {| index_len := 0;
     df_columns := [("a", Int64Col []); ("s", OtherCol [])] |}.

(** An outside where [table.exist] answers [exist], [perform] counts
    [valid] valid records, [upload_file] meets the fate [upload], and every
    other call returns. *)
Definition answers (exist : bool) (valid : Z) (upload : option exn) : Env :=
  {| clock := fun n => (1500000000 + Z.of_nat n)%Z;
     table_exist := exist;
     table_delete := None;
     table_create := None;
     client_query := None;
     tmp_name := "/tmp/tmpq.csv";
     create_bulk_import := None;
     upload_file := upload;
     freeze := None;
     perform := None;
     error_records := 0;
     valid_records := valid;
     commit := None;
     delete_session := None;
     pyspark_installed := true;
     default_jar_path := "/pytd/td-spark-assembly_2.11-1.1.0.jar";
     path_exists := fun _ => true;
     getenv := fun _ => None;
     urlopen := None;
     write_file := None;
     remove_file := None;
     close_response := None;
     getOrCreate := None;
     createDataFrame := None;
     save := None;
     stop := None |}.

Definition calm (exist : bool) (valid : Z) : Env := answers exist valid None.

(** An outside without the jar on disk, and with a disk where writing the
    download raises. *)
Definition no_jar : Env :=
  {| clock := fun n => (1500000000 + Z.of_nat n)%Z;
     table_exist := true;
     table_delete := None;
     table_create := None;
     client_query := None;
     tmp_name := "/tmp/tmpq.csv";
     create_bulk_import := None;
     upload_file := None;
     freeze := None;
     perform := None;
     error_records := 0;
     valid_records := 1;
     commit := None;
     delete_session := None;
     pyspark_installed := true;
     default_jar_path := "/pytd/td-spark-assembly_2.11-1.1.0.jar";
     path_exists := fun _ => false;
     getenv := fun _ => None;
     urlopen := None;
     write_file := Some (Exn OtherException "No space left on device");
     remove_file := None;
     close_response := None;
     getOrCreate := None;
     createDataFrame := None;
     save := None;
     stop := None |}.

(** An outside without the jar on disk, where the download URL answers
    with an HTTP error. *)
Definition not_found : Env :=
  {| clock := fun n => (1500000000 + Z.of_nat n)%Z;
     table_exist := true;
     table_delete := None;
     table_create := None;
     client_query := None;
     tmp_name := "/tmp/tmpq.csv";
     create_bulk_import := None;
     upload_file := None;
     freeze := None;
     perform := None;
     error_records := 0;
     valid_records := 1;
     commit := None;
     delete_session := None;
     pyspark_installed := true;
     default_jar_path := "/pytd/td-spark-assembly_2.11-1.1.0.jar";
     path_exists := fun _ => false;
     getenv := fun _ => None;
     urlopen := Some (Exn HTTPError "HTTP Error 404");
     write_file := None;
     remove_file := None;
     close_response := None;
     getOrCreate := None;
     createDataFrame := None;
     save := None;
     stop := None |}.

(** An outside where the engine refuses the write for want of access
    rights, and every other call returns. *)
Definition denied : Env :=
  {| clock := fun n => (1500000000 + Z.of_nat n)%Z;
     table_exist := true;
     table_delete := None;
     table_create := None;
     client_query := None;
     tmp_name := "/tmp/tmpq.csv";
     create_bulk_import := None;
     upload_file := None;
     freeze := None;
     perform := None;
     error_records := 0;
     valid_records := 1;
     commit := None;
     delete_session := None;
     pyspark_installed := true;
     default_jar_path := "/pytd/td-spark-assembly_2.11-1.1.0.jar";
     path_exists := fun _ => true;
     getenv := fun _ => None;
     urlopen := None;
     write_file := None;
     remove_file := None;
     close_response := None;
     getOrCreate := None;
     createDataFrame := None;
     save := Some (Exn Py4JJavaError "TDClientException: [API_ACCESS_FAILURE]");
     stop := None |}.

Definition timeout : exn := Exn OtherException "timed out".

(** A world with the frame [df] at every reference, writers fresh from
    [__init__], nothing issued yet. *)
Definition fresh_world (df : DataFrame) : World :=
  {| frames := fun _ => df;
     writers := fun _ => SparkWriter.init None true;
     stopped := [];
     next_session := 0;
     ticks := 0;
     journal := [] |}.

(** The world one write through a fresh SparkWriter leaves, with the
    identity K1, E1. *)
Definition after_first_write : World :=
  snd (SparkWriter.write_dataframe (calm true 1) 0 0 db_tbl "append"
                                   (fresh_world ab_frame)).

(** ** Vocabulary of the statements *)

(** [emits P m]: whatever the world, [m] only appends to the journal, and
    every event it appends satisfies [P]. *)
Definition emits {A} (P : event -> Prop) (m : M A) : Prop :=
  forall w, exists evs,
    journal (snd (m w)) = (journal w ++ evs)%list /\ Forall P evs.

(** [evs] ends with the events [suffix]. *)
Definition ends_with (evs suffix : list event) : Prop :=
  exists pre, evs = (pre ++ suffix)%list.

(** A [commit] asks for a positive count of valid records. *)
Definition commit_needs_valid (env : Env) (ev : event) : Prop :=
  match ev with
  | Commit _ _ => (0 < valid_records env)%Z
  | _ => True
  end.

(** What the SparkWriter may issue: nothing on the table handle or the
    bulk-import service, and a write to the engine only with the policy as
    its mode and the qualified table name as its target. *)
Definition spark_event (t : Table) (pol : string) (ev : event) : Prop :=
  match ev with
  | Save _ mode fmt name =>
      mode = pol /\ fmt = "com.treasuredata.spark"
      /\ name = database t ++ "." ++ table t
  | TableDelete _ | TableCreate _ _ | ClientQuery _ _ _
  | CreateBulkImport _ _ _ | UploadFile _ _ _ _ | Freeze _ | Perform _ _
  | Commit _ _ | DeleteSession _ => False
  | _ => True
  end.

(** The destination type the spec gives for a source dtype. *)
Definition presto_type (t : dtype) : string :=
  match t with
  | int64 => "bigint"
  | float64 => "double"
  | other_dtype => "varchar"
  end.

(** A column after [write_dataframe] of the InsertIntoWriter: stringified
    unless its dtype is int64 or float64. *)
Definition stringify (lc : string * column) : string * column :=
  match dtype_of (snd lc) with
  | other_dtype => (fst lc, DataFrame.astype_str (snd lc))
  | _ => lc
  end.

Definition stringified (df : DataFrame) : DataFrame :=
  {| index_len := index_len df;
     df_columns := map stringify (df_columns df) |}.

(** The frame with a [time] column of the value [now] appended. *)
Definition with_time (now : Z) (df : DataFrame) : DataFrame :=
  {| index_len := index_len df;
     df_columns :=
       df_columns df ++ [("time", Int64Col (repeat now (index_len df)))] |}.

(** The frame [write_dataframe] of the BulkImportWriter leaves at the
    caller's reference. *)
Definition bulk_payload (env : Env) (w : World) (dataframe : ref) : DataFrame :=
  if str_in "time" (DataFrame.columns (frames w dataframe))
  then frames w dataframe
  else with_time (clock env (ticks w)) (frames w dataframe).

(** The site [_fetch_td_spark] is to choose for an endpoint: [eu01] before
    [jp] before [us]. *)
Definition site_of (ep : string) : string :=
  if contains "eu01" ep then "eu01"
  else if contains ".co.jp" ep then "jp"
  else "us".

(** The jar [_fetch_td_spark] works with. *)
Definition jar_path (env : Env) (path : option string) : string :=
  match path with
  | Some p => p
  | None => default_jar_path env
  end.


(** The events of the bulk-import session [name] for the table [t] and the
    file [csv], as [bulk_import] is to issue them. *)
Definition session_event (name : string) (t : Table) (csv : string)
    (ev : event) : Prop :=
  match ev with
  | CreateBulkImport n db tbl => n = name /\ db = database t /\ tbl = table t
  | UploadFile n part fmt path =>
      n = name /\ part = "part" /\ fmt = "csv" /\ path = csv
  | Freeze n | DeleteSession n => n = name
  | Perform n wait | Commit n wait => n = name /\ wait = true
  | _ => True
  end.

(** ** Reasoning about runs *)

Lemma issued_app (w w' : World) (evs : list event) :
  journal w' = (journal w ++ evs)%list -> issued w w' = evs.
Proof.
  intros E. unfold issued. rewrite E.
  rewrite skipn_app, skipn_all, Nat.sub_diag. reflexivity.
Qed.

Lemma issued_none (w w' : World) :
  journal w' = journal w -> issued w w' = [].
Proof. intros E. apply issued_app. now rewrite app_nil_r. Qed.

Lemma issued_refl (w : World) : issued w w = [].
Proof. now apply issued_none. Qed.

(** Unfold the monad down to the worlds it produces. *)
Ltac step_py :=
  unfold bind, ret, raise, call, try_except, Exception, time_time,
    load_frame, store_frame, load_self, store_self in *;
  cbn [fst snd journal frames writers stopped next_session ticks] in *.

Lemma skipn_past {X} (l l' : list X) :
  skipn (List.length l) (l ++ l') = l'.
Proof. now rewrite skipn_app, skipn_all, Nat.sub_diag. Qed.

(** Compute what a run issued once its journal is explicit. *)
Ltac issued_py :=
  unfold issued; cbn [journal snd fst];
  rewrite <- ?app_assoc; rewrite ?skipn_past, ?skipn_all; cbn [app].

(** Run a computation by cases on the answers of the outside it asks for. *)
Ltac run_py :=
  repeat (step_py;
          match goal with
          | |- context [match ?x with _ => _ end] =>
              lazymatch x with
              | context [match _ with _ => _ end] => fail
              | _ => destruct x eqn:?
              end
          | |- context [if ?x then _ else _] =>
              lazymatch x with
              | context [match _ with _ => _ end] => fail
              | context [if _ then _ else _] => fail
              | _ => destruct x eqn:?
              end
          end);
  step_py.

Lemma ends_with_rev (evs suffix : list event) :
  (exists r, rev evs = (rev suffix ++ r)%list) -> ends_with evs suffix.
Proof.
  intros [r E]. exists (rev r).
  rewrite <- (rev_involutive evs), E, rev_app_distr, rev_involutive.
  reflexivity.
Qed.

Ltac ends_with_py :=
  apply ends_with_rev; cbn [rev app]; eexists; reflexivity.

(** *** Which events a computation may issue *)

Section Emits.
Context {A B : Type} (P : event -> Prop).

Lemma emits_ret (a : A) : emits P (ret a).
Proof. intros w. exists []. cbn. now rewrite app_nil_r. Qed.

Lemma emits_raise (e : exn) : emits P (@raise A e).
Proof. intros w. exists []. cbn. now rewrite app_nil_r. Qed.

Lemma emits_call (ev : event) (fate : option exn) : P ev -> emits P (call ev fate).
Proof. intros H w. exists [ev]. cbn. auto. Qed.

Lemma emits_bind (m : M A) (k : A -> M B) :
  emits P m -> (forall a, emits P (k a)) -> emits P (bind m k).
Proof.
  intros Hm Hk w. unfold bind. destruct (Hm w) as (evs & E & F).
  destruct (m w) as [[a|e] w1]; cbn in *.
  - destruct (Hk a w1) as (evs' & E' & F'). exists (evs ++ evs')%list.
    rewrite E', E, app_assoc. split; [reflexivity|]. now apply Forall_app.
  - exists evs. auto.
Qed.

Lemma emits_try_except (m : M A) (catches : exn -> bool) (h : exn -> M A) :
  emits P m -> (forall e, emits P (h e)) -> emits P (try_except m catches h).
Proof.
  intros Hm Hh w. unfold try_except. destruct (Hm w) as (evs & E & F).
  destruct (m w) as [[a|e] w1]; cbn in *.
  - exists evs. auto.
  - destruct (catches e); cbn.
    + destruct (Hh e w1) as (evs' & E' & F'). exists (evs ++ evs')%list.
      rewrite E', E, app_assoc. split; [reflexivity|]. now apply Forall_app.
    + exists evs. auto.
Qed.

(** A step that leaves the journal as it is. *)
Lemma emits_silent (m : M A) :
  (forall w, journal (snd (m w)) = journal w) -> emits P m.
Proof. intros H w. exists []. rewrite H, app_nil_r. auto. Qed.

End Emits.

Lemma emits_issued {A} (P : event -> Prop) (m : M A) (w : World) :
  emits P m -> Forall P (issued w (snd (m w))).
Proof.
  intros H. destruct (H w) as (evs & E & F).
  now rewrite (issued_app _ _ _ E).
Qed.

Lemma emits_bind_raise {A B} (P : event -> Prop) (e : exn) (k : A -> M B) :
  emits P (bind (raise e) k).
Proof. intros w. exists []. cbn. now rewrite app_nil_r. Qed.

(** Walk through a computation, leaving one goal per call it makes.  A
    test the computation branches on is kept as an equation. *)
Ltac emits_py :=
  repeat first
    [ apply emits_ret
    | apply emits_raise
    | apply emits_call
    | apply emits_bind_raise
    | apply emits_silent; intros; reflexivity
    | match goal with
      | |- emits _ (bind (if ?b then _ else _) _) => destruct b eqn:?
      | |- emits _ (if ?b then _ else _) => destruct b eqn:?
      | |- emits _ (match ?x with _ => _ end) => destruct x eqn:?
      | |- emits _ (let _ := _ in _) => cbv zeta
      end
    | apply emits_bind; [|intros]
    | apply emits_try_except; [|intros] ].

(** ** The conflict policy *)

Lemma str_in_false (x : string) (a b c d : string) :
  str_in x [a; b; c; d] = false ->
  (x =? a) = false /\ (x =? b) = false /\ (x =? c) = false /\ (x =? d) = false.
Proof.
  unfold str_in; cbn. intros H.
  repeat (apply orb_false_elim in H; destruct H as [? H]). auto.
Qed.

Lemma bulk_import_append_exists env t csv w :
  table_exist env = true ->
  BulkImportWriter.bulk_import env t csv "append" w
  = (Raise (Exn ValueError "Bulk import API does not support `append`"), w).
Proof.
  intros E. unfold BulkImportWriter.bulk_import. rewrite E. reflexivity.
Qed.

Lemma bulk_import_absent_any_policy env t csv w pol pol' :
  table_exist env = false ->
  BulkImportWriter.bulk_import env t csv pol w
  = BulkImportWriter.bulk_import env t csv pol' w.
Proof.
  intros E. unfold BulkImportWriter.bulk_import. rewrite E. reflexivity.
Qed.

(** C1, as the code has it: on a table that exists, [write_dataframe] of the
    BulkImportWriter with the policy [append] raises the ValueError that
    says so, for every payload, before any call on the destination; on an
    absent table the policy is not read, and [append] runs as any other
    policy does. *)
Theorem bulk_append_on_existing_table env w dataframe t :
  (table_exist env = true ->
   let out := BulkImportWriter.write_dataframe env dataframe t "append" w in
   fst out = Raise (Exn ValueError "Bulk import API does not support `append`")
   /\ filter on_destination (issued w (snd out)) = [])
  /\ (table_exist env = false ->
      forall pol,
        BulkImportWriter.write_dataframe env dataframe t "append" w
        = BulkImportWriter.write_dataframe env dataframe t pol w).
Proof.
  split; intros E.
  - unfold BulkImportWriter.write_dataframe. step_py.
    destruct (negb _); step_py; rewrite bulk_import_append_exists by exact E;
      cbn; (split; [reflexivity|]);
      (erewrite issued_app; [|cbn [journal]; reflexivity]); reflexivity.
  - intros pol. unfold BulkImportWriter.write_dataframe. step_py.
    destruct (negb _); step_py;
      now rewrite (bulk_import_absent_any_policy env t _ _ "append" pol E).
Qed.

Section AnyFloats.
Context {RT : FloatRuntime}.

Lemma insert_into_rejects_on_existing env t rows names types pol w :
  table_exist env = true ->
  str_in pol SparkWriter.if_exists_values = false ->
  InsertIntoWriter.insert_into env t rows names types pol w
  = (Raise (Exn ValueError ("invalid valud for if_exists: " ++ pol)), w).
Proof.
  intros E H. apply str_in_false in H. destruct H as (H1 & H2 & H3 & H4).
  unfold InsertIntoWriter.insert_into. rewrite E, H1, H2, H3, H4. reflexivity.
Qed.

Lemma bulk_import_rejects_on_existing env t csv pol w :
  table_exist env = true ->
  str_in pol SparkWriter.if_exists_values = false ->
  BulkImportWriter.bulk_import env t csv pol w
  = (Raise (Exn ValueError ("invalid valud for if_exists: " ++ pol)), w).
Proof.
  intros E H. apply str_in_false in H. destruct H as (H1 & H2 & H3 & H4).
  unfold BulkImportWriter.bulk_import. rewrite E, H1, H2, H3, H4. reflexivity.
Qed.

Lemma spark_rejects_unknown_policy env self dataframe t pol w :
  str_in pol SparkWriter.if_exists_values = false ->
  SparkWriter.write_dataframe env self dataframe t pol w
  = (Raise (Exn ValueError ("invalid valud for if_exists: " ++ pol)), w).
Proof.
  intros H. unfold SparkWriter.write_dataframe. rewrite H. reflexivity.
Qed.

(** How a [write_dataframe] of the two stateless writers ends when the
    policy block of [insert_into] or [bulk_import] leaves at once with the
    outcome [r], having touched nothing. *)
Lemma insert_write_dataframe_early env dataframe t pol w r :
  (forall rows names types w1,
      InsertIntoWriter.insert_into env t rows names types pol w1 = (r, w1)) ->
  fst (InsertIntoWriter.write_dataframe env dataframe t pol w) = r
  /\ issued w (snd (InsertIntoWriter.write_dataframe env dataframe t pol w)) = [].
Proof.
  intros H. unfold InsertIntoWriter.write_dataframe. step_py.
  destruct (InsertIntoWriter.infer_columns _) as [[df' names] types].
  step_py. rewrite H. cbn. split; [reflexivity|]. now apply issued_none.
Qed.

Lemma bulk_write_dataframe_early env dataframe t pol w r :
  (forall csv w1, BulkImportWriter.bulk_import env t csv pol w1 = (r, w1)) ->
  fst (BulkImportWriter.write_dataframe env dataframe t pol w) = r
  /\ filter on_destination
       (issued w (snd (BulkImportWriter.write_dataframe env dataframe t pol w)))
     = [].
Proof.
  intros H. unfold BulkImportWriter.write_dataframe. step_py.
  destruct (negb _); step_py; rewrite H; destruct r as [[]|e]; cbn;
    (split; [reflexivity|]);
    (erewrite issued_app;
     [|cbn [journal]; rewrite <- ?app_assoc; reflexivity]);
    reflexivity.
Qed.

Lemma insert_into_absent_any_policy env t rows names types w pol pol' :
  table_exist env = false ->
  InsertIntoWriter.insert_into env t rows names types pol w
  = InsertIntoWriter.insert_into env t rows names types pol' w.
Proof.
  intros E. unfold InsertIntoWriter.insert_into. rewrite E. reflexivity.
Qed.

(** On an absent table the two writers that look at [table.exist] run the
    same under every policy. *)
Lemma stateless_absent_any_policy wr env dataframe t w pol pol' :
  wr = InsertInto \/ wr = BulkImport ->
  table_exist env = false ->
  Writer.write_dataframe wr env dataframe t pol w
  = Writer.write_dataframe wr env dataframe t pol' w.
Proof.
  intros [->| ->] E; unfold Writer.write_dataframe.
  - unfold InsertIntoWriter.write_dataframe. step_py.
    destruct (InsertIntoWriter.infer_columns _) as [[df' names] types].
    step_py. apply insert_into_absent_any_policy, E.
  - unfold BulkImportWriter.write_dataframe. step_py.
    destruct (negb _); step_py;
      now rewrite (bulk_import_absent_any_policy env t _ _ pol pol' E).
Qed.

(** C2, as the code has it: a policy outside the four values makes
    [write_dataframe] raise the ValueError for an invalid policy, before any
    call on the destination: for the SparkWriter always, for the
    InsertIntoWriter and the BulkImportWriter when the table exists.  On an
    absent table these two do not read the policy: they run as under any
    other one. *)
Theorem unknown_policy_rejected wr env w dataframe t pol :
  str_in pol SparkWriter.if_exists_values = false ->
  ((wr = InsertInto \/ wr = BulkImport -> table_exist env = true) ->
   let out := Writer.write_dataframe wr env dataframe t pol w in
   fst out = Raise (Exn ValueError ("invalid valud for if_exists: " ++ pol))
   /\ filter on_destination (issued w (snd out)) = [])
  /\ (wr = InsertInto \/ wr = BulkImport -> table_exist env = false ->
      forall pol',
        Writer.write_dataframe wr env dataframe t pol w
        = Writer.write_dataframe wr env dataframe t pol' w).
Proof.
  intros H. split.
  - intros E.
    destruct wr as [| |self]; unfold Writer.write_dataframe; cbv zeta.
    + destruct (insert_write_dataframe_early env dataframe t pol w
                  (Raise (Exn ValueError
                              ("invalid valud for if_exists: " ++ pol))))
        as [R J].
      * intros. apply insert_into_rejects_on_existing; auto.
      * rewrite R, J. auto.
    + apply bulk_write_dataframe_early. intros.
      apply bulk_import_rejects_on_existing; auto.
    + rewrite spark_rejects_unknown_policy by exact H. cbn.
      rewrite issued_refl. auto.
  - intros Hwr E pol'. now apply stateless_absent_any_policy.
Qed.

End AnyFloats.

(** ** Writing to a table that exists *)

Section ExistingTable.
Context {RT : FloatRuntime}.

Lemma insert_into_ignore_exists env t rows names types w :
  table_exist env = true ->
  InsertIntoWriter.insert_into env t rows names types "ignore" w = (Ret tt, w).
Proof.
  intros E. unfold InsertIntoWriter.insert_into. rewrite E. reflexivity.
Qed.

Lemma bulk_import_ignore_exists env t csv w :
  table_exist env = true ->
  BulkImportWriter.bulk_import env t csv "ignore" w = (Ret tt, w).
Proof.
  intros E. unfold BulkImportWriter.bulk_import. rewrite E. reflexivity.
Qed.



(** How the two writers that look at [table.exist] end when their policy
    block leaves at once. *)
Lemma stateless_write_dataframe_early wr env dataframe t pol w r :
  wr = InsertInto \/ wr = BulkImport ->
  (forall rows names types w1,
      InsertIntoWriter.insert_into env t rows names types pol w1 = (r, w1)) ->
  (forall csv w1, BulkImportWriter.bulk_import env t csv pol w1 = (r, w1)) ->
  fst (Writer.write_dataframe wr env dataframe t pol w) = r
  /\ filter on_destination
       (issued w (snd (Writer.write_dataframe wr env dataframe t pol w))) = [].
Proof.
  intros [->| ->] HI HB; unfold Writer.write_dataframe.
  - destruct (insert_write_dataframe_early env dataframe t pol w r HI)
      as [R J].
    rewrite R, J. auto.
  - now apply bulk_write_dataframe_early.
Qed.

(** The SparkWriter never asks whether the table exists. *)
Lemma spark_never_reads_table_exist b env self dataframe t pol w :
  SparkWriter.write_dataframe (with_table_exist b env) self dataframe t pol w
  = SparkWriter.write_dataframe env self dataframe t pol w.
Proof. reflexivity. Qed.

Lemma spark_write_emits env self dataframe t pol :
  emits (spark_event t pol)
        (SparkWriter.write_dataframe env self dataframe t pol).
Proof.
  unfold SparkWriter.write_dataframe, SparkWriter.engine_write,
    SparkWriter.session_for, SparkWriter.fetch_session,
    SparkWriter._fetch_td_spark, SparkWriter._download_td_spark,
    SparkWriter.builder_getOrCreate.
  emits_py; cbn; auto.
Qed.

(** C5, as the code has it: with policy [ignore] on a table that exists,
    InsertIntoWriter and BulkImportWriter return without a call on the
    destination.  SparkWriter runs the same whether the table exists or not,
    and any write it issues goes to the engine with [ignore] as its mode. *)
Theorem ignore_on_existing_table env w dataframe t :
  (forall wr, wr = InsertInto \/ wr = BulkImport ->
     table_exist env = true ->
     let out := Writer.write_dataframe wr env dataframe t "ignore" w in
     fst out = Ret tt /\ filter on_destination (issued w (snd out)) = [])
  /\ (forall self,
        let out := SparkWriter.write_dataframe env self dataframe t "ignore" w in
        (forall b,
            SparkWriter.write_dataframe (with_table_exist b env) self dataframe
                                        t "ignore" w = out)
        /\ Forall (spark_event t "ignore") (issued w (snd out))).
Proof.
  split.
  - intros wr Hwr E. apply stateless_write_dataframe_early; auto; intros.
    + now apply insert_into_ignore_exists.
    + now apply bulk_import_ignore_exists.
  - intros self out. split.
    + intros b. apply spark_never_reads_table_exist.
    + apply emits_issued, spark_write_emits.
Qed.


End ExistingTable.

(** ** The bulk-import session *)

Lemma bulk_import_commit_emits env t csv pol :
  emits (commit_needs_valid env) (BulkImportWriter.bulk_import env t csv pol).
Proof.
  unfold BulkImportWriter.bulk_import, BulkImportWriter.import_session.
  emits_py; cbn; auto.
  all: now apply Z.ltb_lt.
Qed.

(** When [perform] was called and returned, the calls before it returned
    too, and the outcome is decided by the count of valid records. *)
Lemma bulk_import_after_perform env t csv pol w name wait :
  let out := BulkImportWriter.bulk_import env t csv pol w in
  In (Perform name wait) (issued w (snd out)) ->
  perform env = None ->
  (valid_records env <= 0)%Z ->
  fst out = Raise (Exn RuntimeError ("no records have been imported: " ++ name)).
Proof.
  unfold BulkImportWriter.bulk_import, BulkImportWriter.import_session.
  run_py; issued_py; cbn [In]; intros H ? ?;
    repeat match goal with
      | H : _ \/ _ |- _ => destruct H
      | H : False |- _ => destruct H
      | H : Perform _ _ = Perform _ _ |- _ => inversion H; subst; clear H
      | H : (0 <? _)%Z = true |- _ => apply Z.ltb_lt in H
      end;
    try discriminate; try congruence; try lia; reflexivity.
Qed.

(** C7: in [bulk_import], a [commit] is only ever issued when the count of
    valid records is positive; and when [perform] has returned with no valid
    record, the call raises the RuntimeError that names the session and no
    [commit] is issued. *)
Theorem commit_only_with_valid_records env t csv pol w :
  let out := BulkImportWriter.bulk_import env t csv pol w in
  (forall name wait,
      In (Commit name wait) (issued w (snd out)) ->
      (0 < valid_records env)%Z)
  /\ (forall name wait,
        In (Perform name wait) (issued w (snd out)) ->
        perform env = None ->
        valid_records env = 0%Z ->
        fst out
        = Raise (Exn RuntimeError ("no records have been imported: " ++ name))
        /\ forall name' wait', ~ In (Commit name' wait') (issued w (snd out))).
Proof.
  intros out.
  assert (C : forall name wait,
             In (Commit name wait) (issued w (snd out)) ->
             (0 < valid_records env)%Z).
  { intros name wait H.
    pose proof (emits_issued _ _ w (bulk_import_commit_emits env t csv pol)) as F.
    rewrite Forall_forall in F. exact (F _ H). }
  split; [exact C|].
  intros name wait HP Hp Hv. split.
  - apply (bulk_import_after_perform env t csv pol w name wait HP Hp). lia.
  - intros name' wait' HC. apply C in HC. lia.
Qed.

(** C3, as the code has it: once [bulk_import] has created a session, the
    session is deleted when [upload_file] or [freeze] raises, before the
    RuntimeError that wraps the failure, and it is deleted after a [commit]
    that returned; when [perform] returns with no valid record the call
    raises with the session's name and the session is not deleted. *)
Theorem session_deleted_on_upload_failure_and_after_commit
    env t csv pol w name :
  let out := BulkImportWriter.bulk_import env t csv pol w in
  In (CreateBulkImport name (database t) (table t)) (issued w (snd out)) ->
  create_bulk_import env = None ->
  (upload_file env <> None \/ freeze env <> None ->
     ends_with (issued w (snd out)) [DeleteSession name]
     /\ (delete_session env = None ->
         exists msg,
           fst out = Raise (Exn RuntimeError ("failed to upload file: " ++ msg))))
  /\ (upload_file env = None -> freeze env = None -> perform env = None ->
      (0 < valid_records env)%Z -> commit env = None ->
      ends_with (issued w (snd out)) [Commit name true; DeleteSession name]
      /\ (delete_session env = None -> fst out = Ret tt))
  /\ (upload_file env = None -> freeze env = None -> perform env = None ->
      (valid_records env <= 0)%Z ->
      fst out
      = Raise (Exn RuntimeError ("no records have been imported: " ++ name))
      /\ ~ In (DeleteSession name) (issued w (snd out))).
Proof.
  unfold BulkImportWriter.bulk_import, BulkImportWriter.import_session.
  run_py; issued_py; cbn [In]; intros H ?;
    repeat match goal with
      | H : _ \/ _ |- _ => destruct H
      | H : False |- _ => destruct H
      | H : CreateBulkImport _ _ _ = CreateBulkImport _ _ _ |- _ =>
          inversion H; subst; clear H
      | H : (0 <? _)%Z = true |- _ => apply Z.ltb_lt in H
      | H : (0 <? _)%Z = false |- _ => apply Z.ltb_ge in H
      end;
    try discriminate.
  all: repeat split; intros;
    repeat match goal with
      | H : _ \/ _ |- _ => destruct H
      | H : ?x <> ?x |- _ => destruct (H eq_refl)
      end;
    try congruence; try lia; try ends_with_py; try (eexists; reflexivity).
  all: cbn [In]; intuition discriminate.
Qed.

(** ** The session a SparkWriter holds *)

(** What [_fetch_td_spark] leaves behind when it returns: a handle no one
    held before, and a journal that ends with the session's construction. *)
Lemma fetch_td_spark_ret env key ep path dl w s w1 :
  SparkWriter._fetch_td_spark env key ep path dl w = (Ret s, w1) ->
  s = next_session w
  /\ writers w1 = writers w /\ frames w1 = frames w
  /\ stopped w1 = stopped w
  /\ exists evs, journal w1 = (journal w ++ evs)%list
                 /\ ends_with evs [GetOrCreate "local[*]"].
Proof.
  unfold SparkWriter._fetch_td_spark, SparkWriter._download_td_spark,
    SparkWriter.builder_getOrCreate.
  run_py; intros H; inversion H; subst; clear H; cbn;
    repeat (split; [reflexivity|]);
    rewrite <- ?app_assoc; cbn [app];
    (eexists; split; [reflexivity|]); ends_with_py.
Qed.

(** When it raises, the heap is as it was. *)
Lemma fetch_td_spark_raise env key ep path dl w e w1 :
  SparkWriter._fetch_td_spark env key ep path dl w = (Raise e, w1) ->
  writers w1 = writers w /\ frames w1 = frames w /\ stopped w1 = stopped w
  /\ next_session w1 = next_session w.
Proof.
  unfold SparkWriter._fetch_td_spark, SparkWriter._download_td_spark,
    SparkWriter.builder_getOrCreate.
  run_py; intros H; inversion H; subst; clear H; cbn; auto.
Qed.

Lemma engine_write_run env s dataframe t pol w :
  let out := SparkWriter.engine_write env s dataframe t pol w in
  writers (snd out) = writers w /\ frames (snd out) = frames w
  /\ stopped (snd out) = stopped w
  /\ next_session (snd out) = next_session w
  /\ exists rest,
       journal (snd out)
       = (journal w ++ CreateDataFrame s (frames w dataframe) :: rest)%list
       /\ forall m, ~ In (GetOrCreate m) rest.
Proof.
  unfold SparkWriter.engine_write. run_py; cbn; repeat (split; [reflexivity|]);
    rewrite <- ?app_assoc; cbn [app];
    (eexists; split; [reflexivity|]); cbn [In]; intuition discriminate.
Qed.

(** The three ways [session_for] can go. *)
Lemma session_kept env self t w s :
  td_spark (writers w self) = Some s ->
  existsb (Nat.eqb s) (stopped w) = false ->
  apikey (client t) = fetched_apikey (writers w self) ->
  endpoint (client t) = fetched_endpoint (writers w self) ->
  SparkWriter.session_for env self t w = (Ret s, w).
Proof.
  intros Hs Hr Ha He. unfold SparkWriter.session_for, SparkWriter.isStopped.
  step_py. rewrite Hs, Hr, Ha, He, !String.eqb_refl. reflexivity.
Qed.

Lemma session_refused env self t w s :
  td_spark (writers w self) = Some s ->
  existsb (Nat.eqb s) (stopped w) = false ->
  apikey (client t) <> fetched_apikey (writers w self)
  \/ endpoint (client t) <> fetched_endpoint (writers w self) ->
  SparkWriter.session_for env self t w = (Raise SparkWriter.mismatch, w).
Proof.
  intros Hs Hr Hne. unfold SparkWriter.session_for, SparkWriter.isStopped.
  step_py. rewrite Hs, Hr.
  destruct Hne as [H|H]; apply String.eqb_neq in H; rewrite H;
    cbn [negb orb]; rewrite ?orb_true_r; reflexivity.
Qed.

Lemma session_fetched env self t w :
  td_spark (writers w self) = None
  \/ (exists s, td_spark (writers w self) = Some s
                /\ existsb (Nat.eqb s) (stopped w) = true) ->
  SparkWriter.session_for env self t w
  = SparkWriter.fetch_session env self t w.
Proof.
  intros [H|(s & H & Hr)];
    unfold SparkWriter.session_for, SparkWriter.isStopped;
    step_py; rewrite H; [reflexivity|]. now rewrite Hr.
Qed.

(** C4: on one SparkWriter, under a policy of the vocabulary.  A write whose
    table handle has the identity of the running session goes through that
    session and constructs none; a write whose handle has another identity
    while a session runs raises the mismatch error and leaves the world as
    it was; a write with no session, or with a stopped one, fetches a
    session and, when the fetch returns, records the new session and the
    handle's identity on the writer. *)
Theorem spark_session_kept_refused_or_fetched env self dataframe t pol w :
  str_in pol SparkWriter.if_exists_values = true ->
  let o := writers w self in
  let out := SparkWriter.write_dataframe env self dataframe t pol w in
  (forall s,
      td_spark o = Some s -> existsb (Nat.eqb s) (stopped w) = false ->
      apikey (client t) = fetched_apikey o ->
      endpoint (client t) = fetched_endpoint o ->
      writers (snd out) = writers w
      /\ next_session (snd out) = next_session w
      /\ (forall m, ~ In (GetOrCreate m) (issued w (snd out)))
      /\ exists rest,
           issued w (snd out) = CreateDataFrame s (frames w dataframe) :: rest)
  /\ (forall s,
        td_spark o = Some s -> existsb (Nat.eqb s) (stopped w) = false ->
        apikey (client t) <> fetched_apikey o
        \/ endpoint (client t) <> fetched_endpoint o ->
        out = (Raise SparkWriter.mismatch, w))
  /\ (td_spark o = None
      \/ (exists s, td_spark o = Some s
                    /\ existsb (Nat.eqb s) (stopped w) = true) ->
      match SparkWriter._fetch_td_spark env (apikey (client t))
              (endpoint (client t)) (td_spark_path o) (download_if_missing o) w
      with
      | (Ret s', w1) =>
          s' = next_session w
          /\ In (GetOrCreate "local[*]") (issued w (snd out))
          /\ writers (snd out) self
             = {| td_spark_path := td_spark_path o;
                  download_if_missing := download_if_missing o;
                  td_spark := Some s';
                  fetched_apikey := apikey (client t);
                  fetched_endpoint := endpoint (client t) |}
          /\ In (CreateDataFrame s' (frames w dataframe)) (issued w (snd out))
      | (Raise e, w1) =>
          out = (Raise e, w1) /\ writers w1 = writers w
      end).
Proof.
  intros V o out. subst o.
  assert (E : out = bind (SparkWriter.session_for env self t)
                         (fun s => SparkWriter.engine_write env s dataframe t pol)
                         w).
  { subst out. unfold SparkWriter.write_dataframe. now rewrite V. }
  clearbody out. subst out. unfold bind. split; [|split].
  - intros s Hs Hr Ha He.
    rewrite (session_kept env self t w s Hs Hr Ha He).
    destruct (engine_write_run env s dataframe t pol w)
      as (Hw & _ & _ & Hn & rest & J & G).
    repeat split; auto.
    + intros m. rewrite (issued_app _ _ _ J). cbn [In].
      intros [H|H]; [discriminate|]. exact (G m H).
    + exists rest. now apply issued_app.
  - intros s Hs Hr Hne.
    now rewrite (session_refused env self t w s Hs Hr Hne).
  - intros Habs.
    rewrite (session_fetched env self t w Habs).
    unfold SparkWriter.fetch_session. step_py.
    destruct (SparkWriter._fetch_td_spark _ _ _ _ _ w) as [[s'|e] w1] eqn:F.
    + destruct (fetch_td_spark_ret _ _ _ _ _ _ _ _ F)
        as (Hs & Hw & Hf & _ & evs & J & [pre Hevs]).
      match goal with
      | |- context [SparkWriter.engine_write env s' dataframe t pol ?w2] =>
          destruct (engine_write_run env s' dataframe t pol w2)
            as (Hw' & _ & _ & _ & rest & J' & _);
          cbn [journal frames writers] in Hw', J';
          assert (I : issued w (snd (SparkWriter.engine_write
                                       env s' dataframe t pol w2))
                      = (evs ++ CreateDataFrame s' (frames w dataframe)
                             :: rest)%list)
            by (apply issued_app; etransitivity; [exact J'|];
                rewrite Hf, J, <- app_assoc; reflexivity);
          rewrite I, Hw'
      end.
      repeat split; auto.
      * subst evs. apply in_or_app. left. apply in_or_app. right. now left.
      * now rewrite Nat.eqb_refl.
      * apply in_or_app. right. now left.
    + destruct (fetch_td_spark_raise _ _ _ _ _ _ _ _ F) as (Hw & _).
      auto.
Qed.

(** ** What the writers do to the caller's DataFrame *)

Lemma stringify_label lc : fst (stringify lc) = fst lc.
Proof. unfold stringify. now destruct (dtype_of (snd lc)). Qed.

Lemma find_skips (c : string) (l l' : list (string * column)) :
  ~ In c (map fst l) ->
  find (fun lc => fst lc =? c) (l ++ l') = find (fun lc => fst lc =? c) l'.
Proof.
  induction l as [|x l IH]; cbn; [reflexivity|]. intros H.
  destruct (fst x =? c) eqn:E.
  - apply String.eqb_eq in E. tauto.
  - apply IH. tauto.
Qed.

Lemma map_replace_other (c : string) (col : column)
    (l : list (string * column)) :
  ~ In c (map fst l) ->
  map (fun lc => if fst lc =? c then (fst lc, col) else lc) l = l.
Proof.
  induction l as [|x l IH]; cbn; [reflexivity|]. intros H.
  destruct (fst x =? c) eqn:E.
  - apply String.eqb_eq in E. tauto.
  - rewrite IH by tauto. reflexivity.
Qed.

Lemma existsb_label (c : string) (l : list string) :
  In c l -> existsb (String.eqb c) l = true.
Proof.
  intros H. apply existsb_exists. exists c. split; [exact H|].
  apply String.eqb_refl.
Qed.

(** One stringifying turn of the loop, on the column the loop stands at. *)
Lemma stringify_turn idx (done rest : list (string * column)) c col :
  NoDup (map fst (done ++ (c, col) :: rest)) ->
  let df := {| index_len := idx; df_columns := done ++ (c, col) :: rest |} in
  match DataFrame.getitem c df with
  | Some col' => DataFrame.setitem c (DataFrame.astype_str col') df
  | None => df
  end
  = {| index_len := idx;
       df_columns := done ++ (c, DataFrame.astype_str col) :: rest |}.
Proof.
  intros ND df.
  rewrite map_app in ND. cbn [map fst] in ND.
  assert (Hd : ~ In c (map fst done)).
  { intros H. apply NoDup_remove_2 in ND. apply ND, in_or_app. now left. }
  assert (Hr : ~ In c (map fst rest)).
  { intros H. apply NoDup_remove_2 in ND. apply ND, in_or_app. now right. }
  unfold DataFrame.getitem, DataFrame.setitem, DataFrame.columns. subst df.
  cbn [df_columns index_len].
  rewrite find_skips by exact Hd. cbn [find fst snd].
  rewrite String.eqb_refl.
  rewrite existsb_label
    by (rewrite map_app; apply in_or_app; right; now left).
  rewrite map_app. cbn [map fst]. rewrite String.eqb_refl.
  rewrite !map_replace_other by assumption. reflexivity.
Qed.

(** One turn of the loop, on the column the loop stands at. *)
Lemma infer_column_turn idx (done todo : list (string * column)) c col
    (names types : list string) :
  NoDup (map fst (done ++ (c, col) :: todo)) ->
  InsertIntoWriter.infer_column
    ({| index_len := idx;
        df_columns := map stringify done ++ (c, col) :: todo |},
     names, types)
    (c, dtype_of col)
  = ({| index_len := idx;
        df_columns := map stringify (done ++ [(c, col)]) ++ todo |},
     (names ++ [c])%list, (types ++ [presto_type (dtype_of col)])%list).
Proof.
  intros ND. rewrite map_app, <- app_assoc. cbn [map app].
  assert (S : stringify (c, col)
              = match dtype_of col with
                | other_dtype => (c, DataFrame.astype_str col)
                | _ => (c, col)
                end) by reflexivity.
  rewrite S. unfold InsertIntoWriter.infer_column.
  destruct (dtype_of col); cbn [presto_type]; try reflexivity.
  rewrite stringify_turn; [reflexivity|].
  rewrite map_app, map_map. cbn [map fst].
  rewrite (map_ext _ fst) by (intros; apply stringify_label).
  now rewrite map_app in ND.
Qed.

(** The loop, started anywhere in the frame. *)
Lemma infer_columns_from idx (done todo : list (string * column))
    (names types : list string) :
  NoDup (map fst (done ++ todo)) ->
  fold_left InsertIntoWriter.infer_column
    (combine (map fst todo) (map (fun lc => dtype_of (snd lc)) todo))
    ({| index_len := idx; df_columns := map stringify done ++ todo |},
     names, types)
  = ({| index_len := idx; df_columns := map stringify (done ++ todo) |},
     (names ++ map fst todo)%list,
     (types ++ map (fun lc => presto_type (dtype_of (snd lc))) todo)%list).
Proof.
  revert done names types.
  induction todo as [|[c col] todo IH]; intros done names types ND.
  - cbn. now rewrite !app_nil_r.
  - cbn [map combine fold_left fst snd].
    rewrite infer_column_turn by exact ND.
    rewrite IH by (rewrite <- app_assoc; exact ND).
    rewrite <- !app_assoc. reflexivity.
Qed.

(** The loop of [write_dataframe]: the labels in order, the destination
    type of each dtype, and the frame with its other columns stringified. *)
Lemma infer_columns_spec (df : DataFrame) :
  NoDup (DataFrame.columns df) ->
  InsertIntoWriter.infer_columns df
  = (stringified df, DataFrame.columns df,
     map presto_type (DataFrame.dtypes df)).
Proof.
  intros ND. unfold InsertIntoWriter.infer_columns.
  destruct df as [idx cols].
  unfold DataFrame.columns, DataFrame.dtypes, stringified in *.
  cbn [df_columns index_len] in *.
  pose proof (infer_columns_from idx [] cols [] [] ND) as H.
  cbn [map app] in H. rewrite H. now rewrite map_map.
Qed.

(** The parts of the writers that follow the loop leave the frames alone
    and only add to the journal. *)
Lemma bulk_import_frames env t csv pol w :
  let out := BulkImportWriter.bulk_import env t csv pol w in
  frames (snd out) = frames w
  /\ exists evs, journal (snd out) = (journal w ++ evs)%list.
Proof.
  unfold BulkImportWriter.bulk_import, BulkImportWriter.import_session.
  run_py; cbn [frames journal snd]; (split; [reflexivity|]);
    rewrite <- ?app_assoc; cbn [app];
    first [ eexists; reflexivity | exists []; now rewrite app_nil_r ].
Qed.

Section FramesWithFloats.
Context {RT : FloatRuntime}.

Lemma insert_into_frames env t rows names types pol w :
  frames (snd (InsertIntoWriter.insert_into env t rows names types pol w))
  = frames w.
Proof. unfold InsertIntoWriter.insert_into. run_py; reflexivity. Qed.

(** The frame [write_dataframe] of the InsertIntoWriter leaves at the
    caller's reference, and at every other one. *)
Lemma insert_write_dataframe_frames env dataframe t pol w :
  NoDup (DataFrame.columns (frames w dataframe)) ->
  let out := InsertIntoWriter.write_dataframe env dataframe t pol w in
  frames (snd out) dataframe = stringified (frames w dataframe)
  /\ forall r, r <> dataframe -> frames (snd out) r = frames w r.
Proof.
  intros ND. unfold InsertIntoWriter.write_dataframe. step_py.
  rewrite (infer_columns_spec _ ND). step_py.
  rewrite insert_into_frames. cbn [frames]. split.
  - now rewrite Nat.eqb_refl.
  - intros r Hr. apply Nat.eqb_neq in Hr. now rewrite Hr.
Qed.

End FramesWithFloats.

Lemma setitem_time_absent now df :
  str_in "time" (DataFrame.columns df) = false ->
  DataFrame.setitem_int "time" now df = with_time now df.
Proof.
  intros H. unfold DataFrame.setitem_int, DataFrame.setitem, with_time.
  unfold str_in in H. now rewrite H.
Qed.

(** C9: [write_dataframe] of the BulkImportWriter appends a column [time]
    that holds the clock's value to the caller's frame when, and only when,
    the frame has no column of that label; the frame it hands to [to_csv]
    is the caller's frame with that column, and the caller's frame as it is
    when the label is present. *)
Theorem time_column_added_when_absent env dataframe t pol w :
  let df := frames w dataframe in
  let out := BulkImportWriter.write_dataframe env dataframe t pol w in
  let sent :=
    if str_in "time" (DataFrame.columns df) then df
    else {| index_len := index_len df;
            df_columns :=
              df_columns df
              ++ [("time",
                   Int64Col (repeat (clock env (ticks w)) (index_len df)))] |}
  in
  frames (snd out) dataframe = sent
  /\ exists rest, issued w (snd out) = ToCsv (tmp_name env) sent :: rest.
Proof.
  intros df out sent. subst df out.
  fold (with_time (clock env (ticks w)) (frames w dataframe)) in sent.
  unfold BulkImportWriter.write_dataframe. step_py.
  destruct (str_in "time" (DataFrame.columns (frames w dataframe))) eqn:T;
    cbn [negb]; step_py; rewrite ?Nat.eqb_refl;
    rewrite ?setitem_time_absent by exact T;
    match goal with
    | |- context [BulkImportWriter.bulk_import env t ?csv pol ?w1] =>
        destruct (bulk_import_frames env t csv pol w1) as (F & evs & J);
        destruct (BulkImportWriter.bulk_import env t csv pol w1)
          as [[[]|e] w2]
    end;
    cbn [fst snd frames journal] in *; rewrite F; cbn [frames];
    rewrite ?Nat.eqb_refl; (split; [reflexivity|]);
    eexists; apply issued_app; cbn [journal]; rewrite J;
    rewrite <- ?app_assoc; cbn [app]; reflexivity.
Qed.

(** The literal of a [str] holds no single quote between its two quotes. *)
Lemma replace_char_clears (a b : ascii) (s : string) :
  a <> b -> ~ In a (list_ascii_of_string (replace_char a b s)).
Proof.
  intros Hab. induction s as [|c s IH]; cbn; [tauto|].
  intros [H|H]; [|tauto].
  destruct (Ascii.eqb c a) eqn:E.
  - congruence.
  - apply Ascii.eqb_neq in E. congruence.
Qed.

Lemma literal_of_str (s : string) :
  forall `{FloatRuntime},
  InsertIntoWriter.literal (VStr s)
  = "'" ++ replace_char "'"%char InsertIntoWriter.dquote s ++ "'"
  /\ ~ In "'"%char
        (list_ascii_of_string
           (replace_char "'"%char InsertIntoWriter.dquote s)).
Proof.
  intros. split; [reflexivity|]. apply replace_char_clears. discriminate.
Qed.

(** C8, on the payload of the scenario: the table is created with [a] as
    bigint and [b] as double and one INSERT is issued, but the row it
    carries is [(1.0, 2.5)]: [dataframe.values] holds the int64 column as
    float64 next to the float64 column. *)
Theorem insert_ab_frame_issues `{FloatRuntime} :
  fst (InsertIntoWriter.write_dataframe (calm false 1) 0 db_tbl "error"
         (fresh_world ab_frame)) = Ret tt
  /\ journal (snd (InsertIntoWriter.write_dataframe (calm false 1) 0 db_tbl
                     "error" (fresh_world ab_frame)))
     = [TableCreate db_tbl (Some (["a"; "b"], ["bigint"; "double"]));
        ClientQuery db_tbl "INSERT INTO db.tbl (a, b) VALUES (1.0, 2.5)"
                    "presto"].
Proof.
  assert (E : float_str_of_int 1 = "1.0")
    by (rewrite float_str_of_int_exact by (cbn; lia); reflexivity).
  split; [reflexivity|].
  unfold InsertIntoWriter.write_dataframe, InsertIntoWriter.insert_into.
  step_py. cbn. unfold InsertIntoWriter.q_insert, DataFrame.values_tolist.
  cbn. rewrite E. reflexivity.
Qed.

(** With an object column next to them, the same two cells are rendered
    as they are. *)
Lemma insert_with_object_column_issues `{FloatRuntime} :
  journal (snd (InsertIntoWriter.write_dataframe (calm false 1) 0 db_tbl
                  "error" (fresh_world mixed_frame)))
  = [TableCreate db_tbl (Some (["a"; "s"], ["bigint"; "varchar"]));
     ClientQuery db_tbl
       ("INSERT INTO db.tbl (a, s) VALUES (1, 'it"
          ++ String InsertIntoWriter.dquote "s'), (2, 'True')")
       "presto"].
Proof. reflexivity. Qed.

Section PayloadMutation.
Context {RT : FloatRuntime}.

Lemma bulk_write_dataframe_frames env dataframe t pol w :
  frames (snd (BulkImportWriter.write_dataframe env dataframe t pol w))
         dataframe
  = bulk_payload env w dataframe.
Proof.
  unfold bulk_payload, BulkImportWriter.write_dataframe. step_py.
  destruct (str_in "time" (DataFrame.columns (frames w dataframe))) eqn:T;
    cbn [negb]; step_py; rewrite ?Nat.eqb_refl;
    rewrite ?setitem_time_absent by exact T;
    match goal with
    | |- context [BulkImportWriter.bulk_import env t ?csv pol ?w1] =>
        destruct (bulk_import_frames env t csv pol w1) as (F & _);
        destruct (BulkImportWriter.bulk_import env t csv pol w1)
          as [[[]|e] w2]
    end;
    cbn [fst snd frames] in *; rewrite F; cbn [frames];
    now rewrite ?Nat.eqb_refl.
Qed.

(** C10: [write_dataframe] works on the caller's frame itself.  After the
    InsertIntoWriter every column whose dtype is neither int64 nor float64
    holds the strings of its cells; after the BulkImportWriter the frame
    has a [time] column if it had none.  Either way the frame at the
    caller's reference can differ from the one passed in. *)
Theorem write_dataframe_mutates_payload :
  (forall env dataframe t pol w,
      NoDup (DataFrame.columns (frames w dataframe)) ->
      frames (snd (InsertIntoWriter.write_dataframe env dataframe t pol w))
             dataframe
      = stringified (frames w dataframe))
  /\ (forall env dataframe t pol w,
        frames (snd (BulkImportWriter.write_dataframe env dataframe t pol w))
               dataframe
        = bulk_payload env w dataframe)
  /\ (exists env dataframe t pol w,
        NoDup (DataFrame.columns (frames w dataframe))
        /\ frames (snd (InsertIntoWriter.write_dataframe env dataframe t pol w))
                  dataframe
           <> frames w dataframe)
  /\ (exists env dataframe t pol w,
        frames (snd (BulkImportWriter.write_dataframe env dataframe t pol w))
               dataframe
        <> frames w dataframe).
Proof.
  split; [|split; [|split]].
  - intros. now apply insert_write_dataframe_frames.
  - intros. apply bulk_write_dataframe_frames.
  - exists (calm false 1), 0%nat, db_tbl, "error", (fresh_world mixed_frame).
    assert (ND : NoDup (DataFrame.columns (frames (fresh_world mixed_frame) 0)))
      by (cbn; repeat constructor; cbn; intuition discriminate).
    split; [exact ND|].
    destruct (insert_write_dataframe_frames (calm false 1) 0%nat db_tbl "error"
                (fresh_world mixed_frame) ND) as [F _].
    rewrite F. cbn. discriminate.
  - exists (calm false 1), 0%nat, db_tbl, "error", (fresh_world ab_frame).
    rewrite bulk_write_dataframe_frames. cbn. discriminate.
Qed.

End PayloadMutation.

(** ** The statements at work on the fixtures *)

Lemma bulk_append_on_existing_table_witness :
  (table_exist (calm true 1) = true
   /\ fst (BulkImportWriter.write_dataframe (calm true 1) 0 db_tbl "append"
             (fresh_world ab_frame))
      = Raise (Exn ValueError "Bulk import API does not support `append`"))
  /\ (table_exist (calm false 1) = false
      /\ BulkImportWriter.write_dataframe (calm false 1) 0 db_tbl "append"
           (fresh_world ab_frame)
         = BulkImportWriter.write_dataframe (calm false 1) 0 db_tbl "overwrite"
             (fresh_world ab_frame)).
Proof.
  split; (split; [reflexivity|]).
  - apply (proj1 (bulk_append_on_existing_table (calm true 1)
                    (fresh_world ab_frame) 0%nat db_tbl)).
    reflexivity.
  - apply (proj2 (bulk_append_on_existing_table (calm false 1)
                    (fresh_world ab_frame) 0%nat db_tbl)).
    reflexivity.
Defined.

(** On an absent table the BulkImportWriter takes [append]: it creates the
    table and runs the import to its end. *)
Lemma bulk_append_on_absent_table_runs :
  fst (BulkImportWriter.write_dataframe (calm false 1) 0 db_tbl "append"
         (fresh_world ab_frame)) = Ret tt
  /\ filter on_destination
       (journal (snd (BulkImportWriter.write_dataframe (calm false 1) 0 db_tbl
                        "append" (fresh_world ab_frame))))
     = [TableCreate db_tbl None;
        CreateBulkImport "session-1500000001" "db" "tbl";
        UploadFile "session-1500000001" "part" "csv" "/tmp/tmpq.csv";
        Freeze "session-1500000001";
        Perform "session-1500000001" true;
        Commit "session-1500000001" true;
        DeleteSession "session-1500000001"].
Proof. split; reflexivity. Qed.

Lemma unknown_policy_rejected_witness :
  str_in "replace" SparkWriter.if_exists_values = false
  /\ (table_exist (calm true 1) = true
      /\ fst (Writer.write_dataframe InsertInto (calm true 1) 0 db_tbl
                "replace" (fresh_world ab_frame))
         = Raise (Exn ValueError "invalid valud for if_exists: replace"))
  /\ (table_exist (calm false 1) = false
      /\ Writer.write_dataframe BulkImport (calm false 1) 0 db_tbl "replace"
           (fresh_world ab_frame)
         = Writer.write_dataframe BulkImport (calm false 1) 0 db_tbl "error"
             (fresh_world ab_frame)).
Proof.
  split; [reflexivity|]. split; (split; [reflexivity|]).
  - apply (proj1 (unknown_policy_rejected InsertInto (calm true 1)
                    (fresh_world ab_frame) 0%nat db_tbl "replace" eq_refl)).
    intros _. reflexivity.
  - apply (proj2 (unknown_policy_rejected BulkImport (calm false 1)
                    (fresh_world ab_frame) 0%nat db_tbl "replace" eq_refl)).
    + now right.
    + reflexivity.
Defined.

(** On an absent table the policy is not read: [insert_into] and
    [write_dataframe] of the BulkImportWriter go through with a policy
    outside the four values. *)
Lemma unknown_policy_on_absent_table_runs :
  str_in "replace" SparkWriter.if_exists_values = false
  /\ InsertIntoWriter.insert_into (calm false 1) db_tbl
       [[VInt 1; VStr "x"]] ["a"; "b"] ["bigint"; "varchar"] "replace"
       (fresh_world ab_frame)
     = (Ret tt,
        {| frames := frames (fresh_world ab_frame);
           writers := writers (fresh_world ab_frame);
           stopped := [];
           next_session := 0;
           ticks := 0;
           journal :=
             [TableCreate db_tbl (Some (["a"; "b"], ["bigint"; "varchar"]));
              ClientQuery db_tbl "INSERT INTO db.tbl (a, b) VALUES (1, 'x')"
                          "presto"] |})
  /\ fst (BulkImportWriter.write_dataframe (calm false 1) 0 db_tbl "replace"
            (fresh_world ab_frame)) = Ret tt.
Proof. repeat split. Qed.

Lemma session_deleted_on_upload_failure_and_after_commit_witness :
  ends_with
    (issued (fresh_world ab_frame)
       (snd (BulkImportWriter.bulk_import (answers false 1 (Some timeout))
               db_tbl "/tmp/tmpq.csv" "error" (fresh_world ab_frame))))
    [DeleteSession "session-1500000000"]
  /\ ends_with
       (issued (fresh_world ab_frame)
          (snd (BulkImportWriter.bulk_import (calm true 1) db_tbl
                  "/tmp/tmpq.csv" "overwrite" (fresh_world ab_frame))))
       [Commit "session-1500000000" true; DeleteSession "session-1500000000"].
Proof.
  split.
  - apply (session_deleted_on_upload_failure_and_after_commit
             (answers false 1 (Some timeout)) db_tbl "/tmp/tmpq.csv" "error"
             (fresh_world ab_frame) "session-1500000000").
    + vm_compute. right. left. reflexivity.
    + reflexivity.
    + left. discriminate.
  - apply (session_deleted_on_upload_failure_and_after_commit
             (calm true 1) db_tbl "/tmp/tmpq.csv" "overwrite"
             (fresh_world ab_frame) "session-1500000000");
      try reflexivity.
    vm_compute. right. right. left. reflexivity.
Defined.

(** A run that creates a session and leaves it: [perform] reports no valid
    record, the call raises, and no [delete] was issued. *)
Lemma session_left_when_no_record_is_valid :
  BulkImportWriter.bulk_import (calm false 0) db_tbl "/tmp/tmpq.csv" "error"
    (fresh_world ab_frame)
  = (Raise (Exn RuntimeError
                "no records have been imported: session-1500000000"),
     {| frames := frames (fresh_world ab_frame);
        writers := writers (fresh_world ab_frame);
        stopped := [];
        next_session := 0;
        ticks := 1;
        journal :=
          [TableCreate db_tbl None;
           CreateBulkImport "session-1500000000" "db" "tbl";
           UploadFile "session-1500000000" "part" "csv" "/tmp/tmpq.csv";
           Freeze "session-1500000000";
           Perform "session-1500000000" true] |}).
Proof. reflexivity. Qed.

Lemma commit_only_with_valid_records_witness :
  fst (BulkImportWriter.bulk_import (calm false 0) db_tbl "/tmp/tmpq.csv"
         "error" (fresh_world ab_frame))
  = Raise (Exn RuntimeError
               "no records have been imported: session-1500000000").
Proof.
  apply (proj2 (commit_only_with_valid_records (calm false 0) db_tbl
                  "/tmp/tmpq.csv" "error" (fresh_world ab_frame))
               "session-1500000000" true).
  - vm_compute. do 4 right. left. reflexivity.
  - reflexivity.
  - reflexivity.
Defined.

Lemma spark_session_kept_refused_or_fetched_witness :
  (* the first write, on a fresh writer, fetches session 0 for K1, E1 *)
  writers after_first_write 0
  = {| td_spark_path := None; download_if_missing := true;
       td_spark := Some 0%nat;
       fetched_apikey := "K1"; fetched_endpoint := "E1" |}
  (* a second write with K1, E1 constructs no session *)
  /\ (forall m,
        ~ In (GetOrCreate m)
             (issued after_first_write
                (snd (SparkWriter.write_dataframe (calm true 1) 0 0 db_tbl
                        "append" after_first_write))))
  (* a second write with K2, E1 is refused *)
  /\ SparkWriter.write_dataframe (calm true 1) 0 0 db_tbl_K2 "append"
                                 after_first_write
     = (Raise SparkWriter.mismatch, after_first_write).
Proof.
  pose proof (spark_session_kept_refused_or_fetched (calm true 1) 0%nat 0%nat
                db_tbl "append" (fresh_world ab_frame) eq_refl) as First.
  pose proof (spark_session_kept_refused_or_fetched (calm true 1) 0%nat 0%nat
                db_tbl "append" after_first_write eq_refl) as Same.
  pose proof (spark_session_kept_refused_or_fetched (calm true 1) 0%nat 0%nat
                db_tbl_K2 "append" after_first_write eq_refl) as Other.
  cbv zeta in First, Same, Other.
  split; [|split].
  - destruct First as (_ & _ & F). specialize (F (or_introl eq_refl)).
    exact (proj1 (proj2 (proj2 F))).
  - destruct Same as (S & _).
    destruct (S 0%nat eq_refl eq_refl eq_refl eq_refl) as (_ & _ & G & _).
    exact G.
  - destruct Other as (_ & R & _).
    apply (R 0%nat eq_refl eq_refl). left. discriminate.
Defined.

Lemma ignore_on_existing_table_witness :
  table_exist (calm true 1) = true
  /\ fst (Writer.write_dataframe BulkImport (calm true 1) 0 db_tbl "ignore"
            (fresh_world ab_frame)) = Ret tt
  /\ fst (Writer.write_dataframe InsertInto (calm true 1) 0 db_tbl "ignore"
            (fresh_world ab_frame)) = Ret tt.
Proof.
  split; [reflexivity|]. split.
  - apply (proj1 (ignore_on_existing_table (calm true 1)
                    (fresh_world ab_frame) 0%nat db_tbl) BulkImport);
      [now right | reflexivity].
  - apply (proj1 (ignore_on_existing_table (calm true 1)
                    (fresh_world ab_frame) 0%nat db_tbl) InsertInto);
      [now left | reflexivity].
Defined.

(** The SparkWriter with [ignore] on a table that exists: the write goes to
    the engine. *)
Lemma spark_ignore_on_existing_table_writes :
  table_exist (calm true 1) = true
  /\ filter on_destination
       (issued (fresh_world ab_frame)
          (snd (SparkWriter.write_dataframe (calm true 1) 0 0 db_tbl "ignore"
                  (fresh_world ab_frame))))
     = [Save 0 "ignore" "com.treasuredata.spark" "db.tbl"].
Proof. split; reflexivity. Qed.



Lemma write_dataframe_mutates_payload_witness :
  NoDup (DataFrame.columns mixed_frame)
  /\ frames (snd (InsertIntoWriter.write_dataframe (calm true 1) 0 db_tbl
                    "ignore" (fresh_world mixed_frame))) 0
     = {| index_len := 2;
          df_columns := [("a", Int64Col [1%Z; 2%Z]);
                         ("s", OtherCol [VStr "it's"; VStr "True"])] |}.
Proof.
  assert (ND : NoDup (DataFrame.columns mixed_frame))
    by (cbn; repeat constructor; cbn; intuition discriminate).
  split; [exact ND|].
  exact (proj1 write_dataframe_mutates_payload (calm true 1) 0%nat db_tbl
               "ignore" (fresh_world mixed_frame) ND).
Defined.

(** After [close] the session is stopped, and the next write fetches a new
    one for the identity of its table handle. *)
Example write_after_close_fetches :
  let closed := snd (SparkWriter.close (calm true 1) 0 after_first_write) in
  let out :=
    SparkWriter.write_dataframe (calm true 1) 0 0 db_tbl_K2 "append" closed in
  stopped closed = [0%nat]
  /\ fst out = Ret tt
  /\ writers (snd out) 0
     = {| td_spark_path := None; download_if_missing := true;
          td_spark := Some 1%nat;
          fetched_apikey := "K2"; fetched_endpoint := "E1" |}
  /\ In (GetOrCreate "local[*]") (issued closed (snd out)).
Proof. cbv zeta. repeat split. vm_compute. right. left. reflexivity. Qed.

(** * Further properties of the module *)

(** ** The factory *)

Lemma lower_char_idempotent (c : ascii) :
  lower_char (lower_char c) = lower_char c.
Proof. destruct c as [[] [] [] [] [] [] [] []]; reflexivity. Qed.

Lemma lower_idempotent (s : string) : lower (lower s) = lower s.
Proof.
  induction s as [|c s IH]; cbn; [reflexivity|].
  now rewrite lower_char_idempotent, IH.
Qed.

(** X1: [from_string] decides on the lower-cased name alone.  It makes a
    BulkImportWriter, an InsertIntoWriter or a SparkWriter with the default
    attributes exactly for the names that lower-case to [bulk_import],
    [insert_into] and [spark]; for every other name it raises the
    ValueError, and it makes nothing else. *)
Theorem from_string_vocabulary (writer : string) :
  is_ascii writer = true ->
  Writer.from_string (lower writer) = Writer.from_string writer
  /\ (Writer.from_string writer = Ret NewBulkImportWriter
      <-> lower writer = "bulk_import")
  /\ (Writer.from_string writer = Ret NewInsertIntoWriter
      <-> lower writer = "insert_into")
  /\ (Writer.from_string writer = Ret (NewSparkWriter (SparkWriter.init None true))
      <-> lower writer = "spark")
  /\ (Writer.from_string writer
      = Raise (Exn ValueError "unknown way to upload data to TD is specified")
      <-> ~ In (lower writer) ["bulk_import"; "insert_into"; "spark"])
  /\ (forall o, Writer.from_string writer = Ret (NewSparkWriter o) ->
                o = SparkWriter.init None true).
Proof.
  intros _. unfold Writer.from_string. rewrite lower_idempotent.
  split; [reflexivity|].
  destruct (lower writer =? "bulk_import") eqn:B;
    [apply String.eqb_eq in B | apply String.eqb_neq in B];
    [|destruct (lower writer =? "insert_into") eqn:I;
      [apply String.eqb_eq in I | apply String.eqb_neq in I];
      [|destruct (lower writer =? "spark") eqn:S;
        [apply String.eqb_eq in S | apply String.eqb_neq in S]]];
    repeat split; cbn [In]; intros;
    try discriminate; try reflexivity; try congruence;
    try (intuition congruence).
Qed.

Lemma from_string_vocabulary_witness :
  is_ascii "Bulk_Import" = true
  /\ Writer.from_string "Bulk_Import" = Ret NewBulkImportWriter
  /\ Writer.from_string "SPARK"
     = Ret (NewSparkWriter (SparkWriter.init None true))
  /\ Writer.from_string " spark"
     = Raise (Exn ValueError "unknown way to upload data to TD is specified").
Proof.
  split; [reflexivity|].
  destruct (from_string_vocabulary "Bulk_Import" eq_refl) as (_ & B & _).
  destruct (from_string_vocabulary "SPARK" eq_refl) as (_ & _ & _ & S & _).
  destruct (from_string_vocabulary " spark" eq_refl) as (_ & _ & _ & _ & U & _).
  split; [apply B; reflexivity|]. split; [apply S; reflexivity|].
  apply U. cbn. intros [E|[E|[E|[]]]]; discriminate.
Defined.

(** ** insert_into *)

(** X2: [overwrite] on a table that exists is three calls, the delete, the
    create with the given schema and the INSERT, and it stops at the first
    that raises: when the create raises after the delete, the table stays
    deleted and nothing is inserted. *)
Theorem insert_into_overwrite_steps env t rows names types w :
  table_exist env = true ->
  let out := InsertIntoWriter.insert_into env t rows names types "overwrite" w in
  let create := TableCreate t (Some (names, types)) in
  let query :=
    ClientQuery t (InsertIntoWriter.q_insert t rows names) "presto" in
  match table_delete env, table_create env, client_query env with
  | Some e, _, _ =>
      fst out = Raise e /\ issued w (snd out) = [TableDelete t]
  | None, Some e, _ =>
      fst out = Raise e /\ issued w (snd out) = [TableDelete t; create]
  | None, None, Some e =>
      fst out = Raise e /\ issued w (snd out) = [TableDelete t; create; query]
  | None, None, None =>
      fst out = Ret tt /\ issued w (snd out) = [TableDelete t; create; query]
  end.
Proof.
  intros E. unfold InsertIntoWriter.insert_into. rewrite E. cbn.
  run_py; issued_py; split; reflexivity.
Qed.

Lemma insert_into_overwrite_steps_witness :
  table_exist (answers true 1 None) = true
  /\ fst (InsertIntoWriter.insert_into (answers true 1 None) db_tbl
            [[VInt 1]] ["a"] ["bigint"] "overwrite" (fresh_world ab_frame))
     = Ret tt.
Proof.
  split; [reflexivity|].
  exact (proj1 (insert_into_overwrite_steps (answers true 1 None) db_tbl
                  [[VInt 1]] ["a"] ["bigint"] (fresh_world ab_frame) eq_refl)).
Defined.

(** X3: [insert_into] issues at most the one INSERT it builds, with the
    engine presto, and only once the table is there: on a table that exists
    under [append], or under [overwrite] after the delete and the create
    returned; on an absent table after the create returned. *)
Theorem insert_only_into_a_table_that_is_there
    env t rows names types pol w t' q engine :
  In (ClientQuery t' q engine)
     (issued w (snd (InsertIntoWriter.insert_into env t rows names types pol w)))
  ->
  (t' = t /\ q = InsertIntoWriter.q_insert t rows names /\ engine = "presto")
  /\ (if table_exist env then
        pol = "append"
        \/ (pol = "overwrite" /\ table_delete env = None
            /\ table_create env = None)
      else table_create env = None).
Proof.
  unfold InsertIntoWriter.insert_into.
  run_py; issued_py; cbn [In]; intros H;
    repeat match goal with
      | H : _ \/ _ |- _ => destruct H
      | H : False |- _ => destruct H
      | H : ClientQuery _ _ _ = ClientQuery _ _ _ |- _ =>
          inversion H; subst; clear H
      | H : (_ =? _) = true |- _ => apply String.eqb_eq in H
      end;
    try discriminate; auto.
Qed.

Lemma insert_only_into_a_table_that_is_there_witness :
  In (ClientQuery db_tbl "INSERT INTO db.tbl (a) VALUES (1)" "presto")
     (issued (fresh_world ab_frame)
        (snd (InsertIntoWriter.insert_into (calm true 1) db_tbl [[VInt 1]]
                ["a"] ["bigint"] "append" (fresh_world ab_frame))))
  /\ ("append" = "append"
      \/ ("append" = "overwrite" /\ table_delete (calm true 1) = None
          /\ table_create (calm true 1) = None)).
Proof.
  assert (H : In (ClientQuery db_tbl "INSERT INTO db.tbl (a) VALUES (1)"
                              "presto")
                 (issued (fresh_world ab_frame)
                    (snd (InsertIntoWriter.insert_into (calm true 1) db_tbl
                            [[VInt 1]] ["a"] ["bigint"] "append"
                            (fresh_world ab_frame)))))
    by (vm_compute; left; reflexivity).
  split; [exact H|].
  exact (proj2 (insert_only_into_a_table_that_is_there (calm true 1) db_tbl
                  [[VInt 1]] ["a"] ["bigint"] "append" (fresh_world ab_frame)
                  _ _ _ H)).
Defined.

(** ** bulk_import *)

(** X4: every call [bulk_import] makes on its session goes to the one
    session it named from the clock, for the handle's database and table,
    uploading the given file as the part [part] in format [csv], and
    waiting on [perform] and [commit]. *)
Theorem bulk_import_session_events env t csv pol w :
  Forall (session_event ("session-" ++ str_int (clock env (ticks w))) t csv)
         (issued w (snd (BulkImportWriter.bulk_import env t csv pol w))).
Proof.
  unfold BulkImportWriter.bulk_import, BulkImportWriter.import_session.
  run_py; issued_py; repeat constructor.
Qed.

(** X5: the protocol is kept in order.  A session is created only once the
    table is there; the file is uploaded only to a session that was
    created; [freeze] follows an upload that returned, [perform] a freeze
    that returned, [commit] a perform that returned with a positive count
    of valid records; and a session is deleted only after a failed upload
    or freeze, or after a commit that returned. *)
Theorem bulk_import_protocol_order env t csv pol w :
  let evs := issued w (snd (BulkImportWriter.bulk_import env t csv pol w)) in
  (forall n db tbl, In (CreateBulkImport n db tbl) evs ->
     if table_exist env then
       pol = "overwrite" /\ table_delete env = None /\ table_create env = None
     else table_create env = None)
  /\ (forall n part fmt path, In (UploadFile n part fmt path) evs ->
        create_bulk_import env = None)
  /\ (forall n, In (Freeze n) evs -> upload_file env = None)
  /\ (forall n wait, In (Perform n wait) evs ->
        upload_file env = None /\ freeze env = None)
  /\ (forall n wait, In (Commit n wait) evs ->
        perform env = None /\ (0 < valid_records env)%Z)
  /\ (forall n, In (DeleteSession n) evs ->
        upload_file env <> None \/ freeze env <> None
        \/ (commit env = None /\ (0 < valid_records env)%Z)).
Proof.
  unfold BulkImportWriter.bulk_import, BulkImportWriter.import_session.
  run_py; issued_py; cbn [In]; repeat split; intros;
    repeat match goal with
      | H : _ \/ _ |- _ => destruct H
      | H : False |- _ => destruct H
      | H : (_ =? _) = true |- _ => apply String.eqb_eq in H
      | H : (0 <? _)%Z = true |- _ => apply Z.ltb_lt in H
      end;
    try discriminate; auto.
  all: try (left; congruence); try (right; left; congruence).
Qed.

Lemma bulk_import_protocol_order_witness :
  In (Commit "session-1500000000" true)
     (issued (fresh_world ab_frame)
        (snd (BulkImportWriter.bulk_import (calm false 1) db_tbl
                "/tmp/tmpq.csv" "error" (fresh_world ab_frame))))
  /\ perform (calm false 1) = None
  /\ (0 < valid_records (calm false 1))%Z.
Proof.
  assert (H : In (Commit "session-1500000000" true)
                 (issued (fresh_world ab_frame)
                    (snd (BulkImportWriter.bulk_import (calm false 1) db_tbl
                            "/tmp/tmpq.csv" "error" (fresh_world ab_frame)))))
    by (vm_compute; do 6 right; left; reflexivity).
  split; [exact H|].
  pose proof (bulk_import_protocol_order (calm false 1) db_tbl "/tmp/tmpq.csv"
                "error" (fresh_world ab_frame)) as P.
  cbv zeta in P. destruct P as (_ & _ & _ & _ & C & _).
  exact (C _ _ H).
Defined.

(** X6: the count of error records decides nothing but a warning.  Whatever
    the count, the outcome of [bulk_import] and the calls it issues on the
    destination are the same; and the warning is logged only after a
    [perform] that returned with a positive count, which the text names. *)
Theorem error_records_only_warn env n t csv pol w :
  let out := BulkImportWriter.bulk_import env t csv pol w in
  let out' :=
    BulkImportWriter.bulk_import (with_error_records n env) t csv pol w in
  fst out' = fst out
  /\ filter on_destination (issued w (snd out'))
     = filter on_destination (issued w (snd out))
  /\ (forall msg, In (LogWarning msg) (issued w (snd out)) ->
        perform env = None /\ (0 < error_records env)%Z
        /\ msg = "detected " ++ str_int (error_records env)
                   ++ " error records.").
Proof.
  unfold BulkImportWriter.bulk_import, BulkImportWriter.import_session.
  cbn [with_error_records clock table_exist table_delete table_create
       create_bulk_import upload_file freeze perform error_records
       valid_records commit delete_session].
  run_py; issued_py; cbn [In filter on_destination];
    (split; [reflexivity|]); (split; [reflexivity|]); intros;
    repeat match goal with
      | H : _ \/ _ |- _ => destruct H
      | H : False |- _ => destruct H
      | H : LogWarning _ = LogWarning _ |- _ => inversion H; subst; clear H
      | H : (0 <? _)%Z = true |- _ => apply Z.ltb_lt in H
      end;
    try discriminate; auto.
Qed.

Lemma error_records_only_warn_witness :
  In (LogWarning "detected 3 error records.")
     (issued (fresh_world ab_frame)
        (snd (BulkImportWriter.bulk_import
                (with_error_records 3 (calm false 1)) db_tbl "/tmp/tmpq.csv"
                "error" (fresh_world ab_frame))))
  /\ fst (BulkImportWriter.bulk_import
            (with_error_records 3 (calm false 1)) db_tbl "/tmp/tmpq.csv"
            "error" (fresh_world ab_frame)) = Ret tt.
Proof.
  split.
  - vm_compute. do 5 right. left. reflexivity.
  - exact (proj1 (error_records_only_warn (calm false 1) 3 db_tbl
                    "/tmp/tmpq.csv" "error" (fresh_world ab_frame))).
Defined.

(** ** write_dataframe and the frame *)

Lemma stringified_columns df :
  DataFrame.columns (stringified df) = DataFrame.columns df.
Proof.
  unfold DataFrame.columns, stringified. cbn [df_columns].
  rewrite map_map. apply map_ext. intros lc. apply stringify_label.
Qed.

Lemma stringify_idempotent lc : stringify (stringify lc) = stringify lc.
Proof.
  destruct lc as [c [xs|xs|xs]]; try reflexivity.
  unfold stringify. cbn. unfold DataFrame.astype_str. cbn.
  rewrite map_map. reflexivity.
Qed.

Lemma stringified_idempotent df : stringified (stringified df) = stringified df.
Proof.
  unfold stringified. cbn [df_columns index_len]. rewrite map_map.
  f_equal. apply map_ext. intros lc. apply stringify_idempotent.
Qed.

Lemma bulk_payload_has_time env w dataframe :
  str_in "time" (DataFrame.columns (bulk_payload env w dataframe)) = true.
Proof.
  unfold bulk_payload.
  destruct (str_in "time" (DataFrame.columns (frames w dataframe))) eqn:T;
    [exact T|].
  unfold with_time, DataFrame.columns, str_in. cbn [df_columns].
  rewrite map_app, existsb_app. cbn. apply orb_true_r.
Qed.

Section FrameProperties.
Context {RT : FloatRuntime}.

(** What [write_dataframe] of the InsertIntoWriter does on an absent table
    whose creation returns. *)
Lemma insert_write_dataframe_absent env dataframe t pol w :
  NoDup (DataFrame.columns (frames w dataframe)) ->
  table_exist env = false ->
  table_create env = None ->
  let df := frames w dataframe in
  let out := InsertIntoWriter.write_dataframe env dataframe t pol w in
  fst out = match client_query env with None => Ret tt | Some e => Raise e end
  /\ issued w (snd out)
     = [TableCreate t (Some (DataFrame.columns df,
                             map presto_type (DataFrame.dtypes df)));
        ClientQuery t
          (InsertIntoWriter.q_insert t
             (DataFrame.values_tolist (stringified df)) (DataFrame.columns df))
          "presto"].
Proof.
  intros ND E C. unfold InsertIntoWriter.write_dataframe. step_py.
  rewrite (infer_columns_spec _ ND). step_py.
  unfold InsertIntoWriter.insert_into. rewrite E, C.
  run_py; issued_py; split; reflexivity.
Qed.

(** X7: on an absent table, [write_dataframe] of the InsertIntoWriter
    creates the table with the frame's labels in order, each typed from its
    dtype (int64 as bigint, float64 as double, any other as varchar), and
    then issues one INSERT over the same labels; the outcome is the
    query's. *)
Theorem insert_write_dataframe_schema env dataframe t pol w :
  NoDup (DataFrame.columns (frames w dataframe)) ->
  table_exist env = false ->
  table_create env = None ->
  let df := frames w dataframe in
  let out := InsertIntoWriter.write_dataframe env dataframe t pol w in
  fst out = match client_query env with None => Ret tt | Some e => Raise e end
  /\ issued w (snd out)
     = [TableCreate t (Some (DataFrame.columns df,
                             map presto_type (DataFrame.dtypes df)));
        ClientQuery t
          (InsertIntoWriter.q_insert t
             (DataFrame.values_tolist (stringified df)) (DataFrame.columns df))
          "presto"].
Proof.
  intros ND E C. unfold InsertIntoWriter.write_dataframe. step_py.
  rewrite (infer_columns_spec _ ND). step_py.
  unfold InsertIntoWriter.insert_into. rewrite E, C.
  run_py; issued_py; split; reflexivity.
Qed.

(** X8: a frame without rows still goes through.  The table is created and
    an INSERT is issued whose VALUES clause is empty. *)
Theorem insert_write_dataframe_no_rows env dataframe t pol w :
  NoDup (DataFrame.columns (frames w dataframe)) ->
  table_exist env = false ->
  table_create env = None ->
  index_len (frames w dataframe) = 0%nat ->
  let df := frames w dataframe in
  issued w (snd (InsertIntoWriter.write_dataframe env dataframe t pol w))
  = [TableCreate t (Some (DataFrame.columns df,
                          map presto_type (DataFrame.dtypes df)));
     ClientQuery t
       ("INSERT INTO " ++ database t ++ "." ++ table t ++ " ("
          ++ join ", " (DataFrame.columns df) ++ ") VALUES ")
       "presto"].
Proof.
  intros ND E C Z df.
  destruct (insert_write_dataframe_absent env dataframe t pol w ND E C)
    as [_ J].
  rewrite J. subst df. unfold DataFrame.values_tolist, stringified.
  cbn [index_len]. rewrite Z. reflexivity.
Qed.

End FrameProperties.



Section Rendering.
Context {RT : FloatRuntime}.




(** X10: a second [write_dataframe] of the InsertIntoWriter on the same
    frame finds nothing left to convert: the frame stays as the first call
    left it. *)
Theorem insert_write_dataframe_twice env env' dataframe t t' pol pol' w :
  NoDup (DataFrame.columns (frames w dataframe)) ->
  let w1 := snd (InsertIntoWriter.write_dataframe env dataframe t pol w) in
  let w2 := snd (InsertIntoWriter.write_dataframe env' dataframe t' pol' w1) in
  frames w2 dataframe = frames w1 dataframe.
Proof.
  intros ND w1 w2.
  destruct (insert_write_dataframe_frames env dataframe t pol w ND) as [F1 _].
  fold w1 in F1.
  assert (ND1 : NoDup (DataFrame.columns (frames w1 dataframe)))
    by (rewrite F1, stringified_columns; exact ND).
  destruct (insert_write_dataframe_frames env' dataframe t' pol' w1 ND1)
    as [F2 _].
  fold w2 in F2. rewrite F2, F1. apply stringified_idempotent.
Qed.

End Rendering.

(** X11: the [time] column is set once.  After a first [write_dataframe] of
    the BulkImportWriter the frame has the column, so a second call on the
    same frame leaves the frame, and the time in it, as they are. *)
Theorem bulk_write_dataframe_twice env env' dataframe t t' pol pol' w :
  let w1 := snd (BulkImportWriter.write_dataframe env dataframe t pol w) in
  let w2 := snd (BulkImportWriter.write_dataframe env' dataframe t' pol' w1) in
  str_in "time" (DataFrame.columns (frames w1 dataframe)) = true
  /\ frames w2 dataframe = frames w1 dataframe.
Proof.
  intros w1 w2. subst w1 w2.
  assert (T : str_in "time"
                (DataFrame.columns
                   (frames (snd (BulkImportWriter.write_dataframe
                                   env dataframe t pol w)) dataframe)) = true)
    by (rewrite bulk_write_dataframe_frames; apply bulk_payload_has_time).
  split; [exact T|].
  rewrite (bulk_write_dataframe_frames env'). unfold bulk_payload.
  now rewrite T.
Qed.

(** ** SparkWriter *)

Ltac unfold_spark :=
  unfold SparkWriter.write_dataframe, SparkWriter.engine_write,
    SparkWriter.session_for, SparkWriter.fetch_session,
    SparkWriter._fetch_td_spark, SparkWriter._download_td_spark,
    SparkWriter.builder_getOrCreate, SparkWriter.isStopped.

(** X12: the SparkWriter leaves the caller's frame alone: after
    [write_dataframe], however it ends, every frame on the heap is as it
    was, and the frame handed to [createDataFrame] is the caller's. *)
Theorem spark_write_dataframe_keeps_payload env self dataframe t pol w :
  let out := SparkWriter.write_dataframe env self dataframe t pol w in
  frames (snd out) = frames w
  /\ forall s df, In (CreateDataFrame s df) (issued w (snd out)) ->
                  df = frames w dataframe.
Proof.
  unfold_spark. run_py; (split; [reflexivity|]); issued_py; cbn [In]; intros;
    repeat match goal with
      | H : _ \/ _ |- _ => destruct H
      | H : False |- _ => destruct H
      | H : CreateDataFrame _ _ = CreateDataFrame _ _ |- _ =>
          inversion H; subst; clear H
      end;
    try discriminate; reflexivity.
Qed.

(** X13: how a failed engine write comes back.  The write is issued only
    after [createDataFrame] returned.  When [save] raises a Py4JJavaError
    whose Java exception names API_ACCESS_FAILURE, [write_dataframe] raises
    the PermissionError; any other Py4JJavaError comes back as a
    RuntimeError that carries its text; an exception of another class comes
    back as it is. *)
Theorem spark_save_failure_classes env self dataframe t pol w s mode fmt name :
  let out := SparkWriter.write_dataframe env self dataframe t pol w in
  In (Save s mode fmt name) (issued w (snd out)) ->
  createDataFrame env = None
  /\ forall e, save env = Some e ->
       fst out
       = Raise
           (if is_Py4JJavaError e then
              if contains "API_ACCESS_FAILURE" (str e) then
                Exn PermissionError
                    ("failed to access to Treasure Data Plazma API."
                     ++ "Contact customer support to enable access rights.")
              else
                Exn RuntimeError
                    ("failed to load table via td-spark: " ++ str e)
            else e).
Proof.
  unfold_spark. run_py; issued_py; cbn [In]; intros H;
    repeat match goal with
      | H : _ \/ _ |- _ => destruct H
      | H : False |- _ => destruct H
      end;
    try discriminate;
    (split; [reflexivity|]); intros e0 He0;
    try discriminate; inversion He0; subst; clear He0;
    repeat match goal with
      | H : is_Py4JJavaError _ = _ |- _ => rewrite H
      | H : contains _ _ = _ |- _ => rewrite H
      end;
    reflexivity.
Qed.

Lemma site_of_sequence (ep : string) :
  (let site := "us" in
   let site := if contains ".co.jp" ep then "jp" else site in
   if contains "eu01" ep then "eu01" else site)
  = site_of ep.
Proof.
  unfold site_of. cbv zeta.
  destruct (contains "eu01" ep), (contains ".co.jp" ep); reflexivity.
Qed.

(** X14: no session without the jar.  [_fetch_td_spark] launches a session
    only with PySpark installed and the jar on disk: found there, or
    downloaded by a download that ran to its end.  The launch comes right
    after the submit arguments are set. *)
Theorem fetch_td_spark_needs_the_jar env key ep path dl w m :
  let out := SparkWriter._fetch_td_spark env key ep path dl w in
  In (GetOrCreate m) (issued w (snd out)) ->
  pyspark_installed env = true
  /\ (path_exists env (jar_path env path) = true
      \/ (dl = true /\ urlopen env = None /\ write_file env = None
          /\ close_response env = None))
  /\ exists jar k site api,
       ends_with (issued w (snd out))
                 [SetSubmitArgs jar k site api; GetOrCreate "local[*]"].
Proof.
  unfold SparkWriter._fetch_td_spark, SparkWriter._download_td_spark,
    SparkWriter.builder_getOrCreate, jar_path.
  run_py; issued_py; cbn [In]; intros H;
    repeat match goal with
      | H : _ \/ _ |- _ => destruct H
      | H : False |- _ => destruct H
      | H : negb _ = false |- _ => apply negb_false_iff in H
      | H : negb _ = true |- _ => apply negb_true_iff in H
      | H : _ && _ = true |- _ => apply andb_prop in H; destruct H
      end;
    try discriminate;
    (split; [assumption|]);
    (split;
     [ first [ left; assumption
             | right; repeat split; assumption
             | left; match goal with
                     | H : negb _ && _ = false |- _ =>
                         apply andb_false_iff in H; destruct H as [H|H];
                         [apply negb_false_iff in H; exact H|]
                     end ]
     | do 4 eexists; ends_with_py ]).
Qed.

(** X15: what the submit arguments are filled with.  Whenever
    [_fetch_td_spark] sets them, the jar is the path it was given, or the
    default one when it was given none; the key is the API key; the site is
    [eu01] for an endpoint that contains [eu01], else [jp] for one that
    contains [.co.jp], else [us]; and the three host lines are there
    exactly when TD_PLAZMA_API and TD_PRESTO_API are both set to a string
    that is not empty. *)
Theorem fetch_td_spark_submit_args env key ep path dl w jar k site api :
  In (SetSubmitArgs jar k site api)
     (issued w (snd (SparkWriter._fetch_td_spark env key ep path dl w))) ->
  jar = jar_path env path
  /\ k = key
  /\ site = site_of ep
  /\ match api with
     | Some (a, b) =>
         getenv env "TD_PLAZMA_API" = Some a
         /\ getenv env "TD_PRESTO_API" = Some b
         /\ a <> "" /\ b <> ""
     | None =>
         SparkWriter.truthy (getenv env "TD_PLAZMA_API")
         && SparkWriter.truthy (getenv env "TD_PRESTO_API") = false
     end.
Proof.
  unfold SparkWriter._fetch_td_spark. rewrite site_of_sequence.
  unfold SparkWriter._download_td_spark, SparkWriter.builder_getOrCreate,
    jar_path, site_of.
  run_py; issued_py; cbn [In]; intros H;
    repeat match goal with
      | H : _ \/ _ |- _ => destruct H
      | H : False |- _ => destruct H
      | H : SetSubmitArgs _ _ _ _ = SetSubmitArgs _ _ _ _ |- _ =>
          inversion H; subst; clear H
      end;
    try discriminate;
    repeat split; try reflexivity; try assumption;
    try (cbn; rewrite ?andb_false_r; reflexivity);
    intros E; subst;
    match goal with
    | H : SparkWriter.truthy _ && SparkWriter.truthy _ = true |- _ =>
        apply andb_prop in H; destruct H; discriminate
    end.
Qed.



(** X17: the download asks one fixed URL, and only an HTTPError is
    translated.  When [urlopen] raises an HTTPError the download raises the
    RuntimeError that names the URL; an exception of any other class comes
    back as it is; either way nothing was written. *)
Theorem download_td_spark_url_errors env destination w e :
  urlopen env = Some e ->
  let url := "https://s3.amazonaws.com/td-spark/td-spark-assembly_2.11-1.1.0.jar" in
  let out := SparkWriter._download_td_spark env destination w in
  fst out
  = Raise (if is_HTTPError e then
             Exn RuntimeError ("failed to access to the download URL: " ++ url)
           else e)
  /\ issued w (snd out) = [UrlOpen url].
Proof.
  intros U. unfold SparkWriter._download_td_spark. rewrite U.
  run_py; issued_py; split; reflexivity.
Qed.

Lemma download_td_spark_url_errors_witness :
  fst (SparkWriter._download_td_spark not_found "/pytd/td-spark.jar"
         (fresh_world ab_frame))
  = Raise (Exn RuntimeError
               ("failed to access to the download URL: "
                ++ "https://s3.amazonaws.com/td-spark/td-spark-assembly_2.11-1.1.0.jar")).
Proof.
  exact (proj1 (download_td_spark_url_errors not_found "/pytd/td-spark.jar"
                  (fresh_world ab_frame) (Exn HTTPError "HTTP Error 404")
                  eq_refl)).
Defined.

(** X18: no partial jar stays.  When writing the download raises, the file
    is removed right after and the exception comes back (the one of the
    removal, should that raise too), and the response is not closed; a file
    is removed in no other case, and the response is closed only after a
    write that returned. *)
Theorem download_td_spark_cleans_up env destination w :
  let out := SparkWriter._download_td_spark env destination w in
  let evs := issued w (snd out) in
  (forall e, urlopen env = None -> write_file env = Some e ->
     ends_with evs [WriteFile destination; RemoveFile destination]
     /\ fst out = Raise (match remove_file env with
                         | None => e
                         | Some e' => e'
                         end))
  /\ (forall p, In (RemoveFile p) evs ->
        p = destination /\ write_file env <> None)
  /\ (In CloseResponse evs -> write_file env = None).
Proof.
  unfold SparkWriter._download_td_spark.
  run_py; issued_py; cbn [In]; repeat split; intros;
    repeat match goal with
      | H : _ \/ _ |- _ => destruct H
      | H : False |- _ => destruct H
      | H : RemoveFile _ = RemoveFile _ |- _ => inversion H; subst; clear H
      | H : Some _ = Some _ |- _ => inversion H; subst; clear H
      end;
    try discriminate; try reflexivity; try ends_with_py.
Qed.

Lemma download_td_spark_cleans_up_witness :
  ends_with
    (issued (fresh_world ab_frame)
       (snd (SparkWriter._download_td_spark no_jar "/pytd/td-spark.jar"
               (fresh_world ab_frame))))
    [WriteFile "/pytd/td-spark.jar"; RemoveFile "/pytd/td-spark.jar"]
  /\ fst (SparkWriter._download_td_spark no_jar "/pytd/td-spark.jar"
            (fresh_world ab_frame))
     = Raise (Exn OtherException "No space left on device").
Proof.
  pose proof (download_td_spark_cleans_up no_jar "/pytd/td-spark.jar"
                (fresh_world ab_frame)) as P.
  cbv zeta in P. destruct P as (C & _).
  exact (C _ eq_refl eq_refl).
Defined.




(** ** The temporary file *)

(** X20: [write_dataframe] of the BulkImportWriter closes the temporary
    file as its last step when [bulk_import] returns, and not at all when
    it raises: the exception leaves the function before [fp.close()]. *)
Theorem bulk_write_dataframe_closes_file_on_return env dataframe t pol w :
  let out := BulkImportWriter.write_dataframe env dataframe t pol w in
  let evs := issued w (snd out) in
  (fst out = Ret tt -> ends_with evs [CloseFile (tmp_name env)])
  /\ (forall e p, fst out = Raise e -> ~ In (CloseFile p) evs).
Proof.
  unfold BulkImportWriter.write_dataframe, BulkImportWriter.bulk_import,
    BulkImportWriter.import_session.
  run_py; issued_py; split; intros;
    try discriminate; try ends_with_py;
    cbn [In]; intuition discriminate.
Qed.

(** ** The further properties at work on the fixtures *)


Lemma insert_write_dataframe_twice_witness :
  NoDup (DataFrame.columns mixed_frame)
  /\ frames (snd (InsertIntoWriter.write_dataframe (calm true 1) 0 db_tbl
                    "append"
                    (snd (InsertIntoWriter.write_dataframe (calm false 1) 0
                            db_tbl "error" (fresh_world mixed_frame))))) 0
     = frames (snd (InsertIntoWriter.write_dataframe (calm false 1) 0 db_tbl
                      "error" (fresh_world mixed_frame))) 0.
Proof.
  assert (ND : NoDup (DataFrame.columns mixed_frame))
    by (cbn; repeat constructor; cbn; intuition discriminate).
  split; [exact ND|].
  exact (insert_write_dataframe_twice (calm false 1) (calm true 1) 0%nat
           db_tbl db_tbl "error" "append" (fresh_world mixed_frame) ND).
Defined.

Lemma insert_write_dataframe_schema_witness :
  NoDup (DataFrame.columns mixed_frame)
  /\ issued (fresh_world mixed_frame)
        (snd (InsertIntoWriter.write_dataframe (calm false 1) 0 db_tbl "error"
                (fresh_world mixed_frame)))
     = [TableCreate db_tbl (Some (["a"; "s"], ["bigint"; "varchar"]));
        ClientQuery db_tbl
          ("INSERT INTO db.tbl (a, s) VALUES (1, 'it"
             ++ String InsertIntoWriter.dquote "s'), (2, 'True')")
          "presto"].
Proof.
  assert (ND : NoDup (DataFrame.columns mixed_frame))
    by (cbn; repeat constructor; cbn; intuition discriminate).
  split; [exact ND|].
  exact (proj2 (insert_write_dataframe_schema (calm false 1) 0%nat db_tbl
                  "error" (fresh_world mixed_frame) ND eq_refl eq_refl)).
Defined.

Lemma insert_write_dataframe_no_rows_witness :
  NoDup (DataFrame.columns no_rows)
  /\ index_len no_rows = 0%nat
  /\ issued (fresh_world no_rows)
        (snd (InsertIntoWriter.write_dataframe (calm false 1) 0 db_tbl "error"
                (fresh_world no_rows)))
     = [TableCreate db_tbl (Some (["a"; "s"], ["bigint"; "varchar"]));
        ClientQuery db_tbl "INSERT INTO db.tbl (a, s) VALUES " "presto"].
Proof.
  assert (ND : NoDup (DataFrame.columns no_rows))
    by (cbn; repeat constructor; cbn; intuition discriminate).
  split; [exact ND|]. split; [reflexivity|].
  exact (insert_write_dataframe_no_rows (calm false 1) 0%nat db_tbl "error"
           (fresh_world no_rows) ND eq_refl eq_refl eq_refl).
Defined.

Lemma spark_write_dataframe_keeps_payload_witness :
  In (CreateDataFrame 0 ab_frame)
     (issued (fresh_world ab_frame)
        (snd (SparkWriter.write_dataframe (calm true 1) 0 0 db_tbl "append"
                (fresh_world ab_frame))))
  /\ ab_frame = frames (fresh_world ab_frame) 0.
Proof.
  assert (H : In (CreateDataFrame 0 ab_frame)
                 (issued (fresh_world ab_frame)
                    (snd (SparkWriter.write_dataframe (calm true 1) 0 0 db_tbl
                            "append" (fresh_world ab_frame)))))
    by (vm_compute; do 2 right; left; reflexivity).
  split; [exact H|].
  exact (proj2 (spark_write_dataframe_keeps_payload (calm true 1) 0%nat 0%nat
                  db_tbl "append" (fresh_world ab_frame)) _ _ H).
Defined.

Lemma spark_save_failure_classes_witness :
  In (Save 0 "append" "com.treasuredata.spark" "db.tbl")
     (issued (fresh_world ab_frame)
        (snd (SparkWriter.write_dataframe denied 0 0 db_tbl "append"
                (fresh_world ab_frame))))
  /\ fst (SparkWriter.write_dataframe denied 0 0 db_tbl "append"
            (fresh_world ab_frame))
     = Raise (Exn PermissionError
                  ("failed to access to Treasure Data Plazma API."
                   ++ "Contact customer support to enable access rights.")).
Proof.
  assert (H : In (Save 0 "append" "com.treasuredata.spark" "db.tbl")
                 (issued (fresh_world ab_frame)
                    (snd (SparkWriter.write_dataframe denied 0 0 db_tbl
                            "append" (fresh_world ab_frame)))))
    by (vm_compute; do 3 right; left; reflexivity).
  split; [exact H|].
  exact (proj2 (spark_save_failure_classes denied 0%nat 0%nat db_tbl "append"
                  (fresh_world ab_frame) _ _ _ _ H) _ eq_refl).
Defined.

Lemma fetch_td_spark_needs_the_jar_witness :
  In (GetOrCreate "local[*]")
     (issued (fresh_world ab_frame)
        (snd (SparkWriter._fetch_td_spark (calm true 1) "K1" "E1" None true
                (fresh_world ab_frame))))
  /\ pyspark_installed (calm true 1) = true.
Proof.
  assert (H : In (GetOrCreate "local[*]")
                 (issued (fresh_world ab_frame)
                    (snd (SparkWriter._fetch_td_spark (calm true 1) "K1" "E1"
                            None true (fresh_world ab_frame)))))
    by (vm_compute; right; left; reflexivity).
  split; [exact H|].
  exact (proj1 (fetch_td_spark_needs_the_jar (calm true 1) "K1" "E1" None true
                  (fresh_world ab_frame) _ H)).
Defined.

Lemma fetch_td_spark_submit_args_witness :
  In (SetSubmitArgs "/opt/td-spark.jar" "K1" "eu01" None)
     (issued (fresh_world ab_frame)
        (snd (SparkWriter._fetch_td_spark (calm true 1) "K1"
                "https://api.eu01.treasuredata.co.jp"
                (Some "/opt/td-spark.jar") true (fresh_world ab_frame))))
  /\ "eu01" = site_of "https://api.eu01.treasuredata.co.jp".
Proof.
  assert (H : In (SetSubmitArgs "/opt/td-spark.jar" "K1" "eu01" None)
                 (issued (fresh_world ab_frame)
                    (snd (SparkWriter._fetch_td_spark (calm true 1) "K1"
                            "https://api.eu01.treasuredata.co.jp"
                            (Some "/opt/td-spark.jar") true
                            (fresh_world ab_frame)))))
    by (vm_compute; left; reflexivity).
  split; [exact H|].
  exact (proj1 (proj2 (proj2
           (fetch_td_spark_submit_args (calm true 1) "K1"
              "https://api.eu01.treasuredata.co.jp" (Some "/opt/td-spark.jar")
              true (fresh_world ab_frame) _ _ _ _ H)))).
Defined.


Lemma bulk_write_dataframe_closes_file_on_return_witness :
  fst (BulkImportWriter.write_dataframe (calm true 1) 0 db_tbl "ignore"
         (fresh_world ab_frame)) = Ret tt
  /\ ends_with
       (issued (fresh_world ab_frame)
          (snd (BulkImportWriter.write_dataframe (calm true 1) 0 db_tbl
                  "ignore" (fresh_world ab_frame))))
       [CloseFile "/tmp/tmpq.csv"].
Proof.
  split; [reflexivity|].
  exact (proj1 (bulk_write_dataframe_closes_file_on_return (calm true 1) 0%nat
                  db_tbl "ignore" (fresh_world ab_frame)) eq_refl).
Defined.
